(** * BedrockLangfuseTracer: a shallow embedding of [agent_trace.py]

    The tracer reads the event stream of a Bedrock agent invocation and
    replays it as Langfuse trace operations.  The Python code is embedded
    function by function, under its own names:

    - Python values are the inductive [pyval]; a [dict] is an association
      list in insertion order, looked up by key (Python keeps the keys of
      a [dict] distinct; a lookup here reads the first entry of a key);
    - an exception is a value of [exn]; fallible pure code returns
      [result], and code that talks to Langfuse or Bedrock runs in the
      state-and-exception monad [M] over [world];
    - the Langfuse client is a recorder: every call is appended to
      [calls] and hands back a fresh handle.  Its operations are total,
      as in the Langfuse client, which reports its own failures to a
      logger; failures belong to the agent backend, whose call may raise
      and whose stream may raise while it is read;
    - [json.loads], [json.dumps] and [str] are the interface [PyRuntime]:
      each is a function of its argument that returns or raises, and
      the properties hold whatever they return or raise, the
      [ValueError] and the [RecursionError] of the interpreter's limits
      included; [uuid.uuid4], [datetime.now], [os.getenv] and
      [invoke_agent] are the interface [Environment].

    Exceptions are the classes under [Exception].

    The file has the embedding first, then a reference runtime that runs
    it, the vocabulary of the properties, and the properties, each claim
    under its number. *)

From Stdlib Require Import String Ascii List ZArith Bool Lia Permutation.
From Stdlib.Strings Require Import Byte.
From Stdlib Require Import DecimalString.
Import ListNotations.
Local Open Scope string_scope.
Local Open Scope list_scope.
Set Warnings "-register-all".

(** ** Python values *)

(** A [float] is an IEEE 754 binary64 number.  [Finite s m e] is
    (-1)^s * m * 2^e, with 2^52 <= m < 2^53 and -1074 <= e <= 971 for a
    normal number, and m < 2^52 and e = -1074 for a subnormal number or
    a zero. *)
Inductive float64 : Type :=
| NaN
| Infinite (negative : bool)
| Finite (negative : bool) (mantissa exponent : Z).

(** A [str] is carried as the UTF-8 encoding of its code points, a
    surrogate (which a [str] may hold on its own) in its three-byte
    form. *)
Inductive pyval : Type :=
| PyNone
| PyBool (b : bool)
| PyInt (n : Z)
| PyFloat (x : float64)
| PyStr (s : string)
| PyBytes (b : list byte)
| PyList (items : list pyval)
| PyDict (entries : list (string * pyval)).

Definition py_type_name (v : pyval) : string :=
  match v with
  | PyNone => "NoneType"
  | PyBool _ => "bool"
  | PyInt _ => "int"
  | PyFloat _ => "float"
  | PyStr _ => "str"
  | PyBytes _ => "bytes"
  | PyList _ => "list"
  | PyDict _ => "dict"
  end.

Definition is_dict (v : pyval) : bool :=
  match v with PyDict _ => true | _ => false end.

(** ** Exceptions and results *)

Inductive exn_class : Type :=
| AttributeError
| KeyError
| TypeError
| ValueError
| JSONDecodeError      (* a subclass of [ValueError] *)
| UnicodeDecodeError   (* a subclass of [ValueError] *)
| RecursionError
| ExternalError (name : string).   (* raised by a collaborator *)

(** Every class above derives from [Exception]: [except Exception] catches
    each of them. *)
Record exn : Type := Exn { exn_class_of : exn_class; exn_message : string }.

Inductive result (A : Type) : Type :=
| Ret (a : A)
| Raise (e : exn).
Arguments Ret {A} a.
Arguments Raise {A} e.

Definition bind_result {A B} (r : result A) (k : A -> result B) : result B :=
  match r with
  | Ret a => k a
  | Raise e => Raise e
  end.

Notation "'let?' x ':=' r 'in' k" := (bind_result r (fun x => k))
  (at level 10, x name, r at level 100, k at level 200).

Definition exn_class_eqb (a b : exn_class) : bool :=
  match a, b with
  | AttributeError, AttributeError => true
  | KeyError, KeyError => true
  | TypeError, TypeError => true
  | ValueError, ValueError => true
  | RecursionError, RecursionError => true
  | JSONDecodeError, JSONDecodeError => true
  | UnicodeDecodeError, UnicodeDecodeError => true
  | ExternalError n, ExternalError m => String.eqb n m
  | _, _ => false
  end.

(** [try: body except (classes): handler] on pure code, for classes
    without subclasses of their own: an exception of another class
    propagates. *)
Definition try_except_classes {A} (body : result A) (classes : list exn_class)
    (handler : result A) : result A :=
  match body with
  | Ret a => Ret a
  | Raise e =>
      if existsb (exn_class_eqb (exn_class_of e)) classes then handler else Raise e
  end.

(** ** Dictionary and container operations *)

Fixpoint dict_lookup (k : string) (d : list (string * pyval)) : option pyval :=
  match d with
  | [] => None
  | (k', v) :: rest => if String.eqb k k' then Some v else dict_lookup k rest
  end.

Definition dict_has (k : string) (d : list (string * pyval)) : bool :=
  match dict_lookup k d with Some _ => true | None => false end.

Fixpoint contains_substring (needle hay : string) : bool :=
  String.prefix needle hay
  || match hay with
     | EmptyString => false
     | String _ rest => contains_substring needle rest
     end.

Definition squote (s : string) : string := "'" ++ s ++ "'".

(** [x.get(k, default)] *)
Definition py_get (x : pyval) (k : string) (default : pyval) : result pyval :=
  match x with
  | PyDict d =>
      Ret (match dict_lookup k d with Some v => v | None => default end)
  | _ =>
      Raise (Exn AttributeError
               (squote (py_type_name x) ++ " object has no attribute 'get'"))
  end.

(** [k in x], for a text key [k] *)
Definition py_contains (k : string) (x : pyval) : result bool :=
  match x with
  | PyDict d => Ret (dict_has k d)
  | PyList items =>
      Ret (existsb (fun v => match v with PyStr s => String.eqb k s | _ => false end)
                   items)
  | PyStr s => Ret (contains_substring k s)
  | PyBytes _ =>
      Raise (Exn TypeError "a bytes-like object is required, not 'str'")
  | _ =>
      Raise (Exn TypeError
               ("argument of type " ++ squote (py_type_name x) ++ " is not iterable"))
  end.

(** [x[k]], for a text key [k] *)
Definition py_getitem (x : pyval) (k : string) : result pyval :=
  match x with
  | PyDict d =>
      match dict_lookup k d with
      | Some v => Ret v
      | None => Raise (Exn KeyError (squote k))
      end
  | PyList _ =>
      Raise (Exn TypeError "list indices must be integers or slices, not str")
  | PyStr _ =>
      Raise (Exn TypeError "string indices must be integers, not 'str'")
  | PyBytes _ =>
      Raise (Exn TypeError "byte indices must be integers or slices, not str")
  | _ =>
      Raise (Exn TypeError
               (squote (py_type_name x) ++ " object is not subscriptable"))
  end.

(** ** UTF-8 *)

Definition in_range (lo hi : N) (b : byte) : bool :=
  (N.leb lo (Byte.to_N b) && N.leb (Byte.to_N b) hi)%bool.

Definition continuation : byte -> bool := in_range 128 191.

(** Well-formed UTF-8: shortest forms only, no surrogates, at most U+10FFFF. *)
Fixpoint utf8_valid (bs : list byte) : bool :=
  match bs with
  | [] => true
  | b0 :: r0 =>
      if in_range 0 127 b0 then utf8_valid r0
      else
        match r0 with
        | [] => false
        | b1 :: r1 =>
            if in_range 194 223 b0 then continuation b1 && utf8_valid r1
            else
              match r1 with
              | [] => false
              | b2 :: r2 =>
                  if in_range 224 239 b0 then
                    (if in_range 224 224 b0 then in_range 160 191 b1
                     else if in_range 237 237 b0 then in_range 128 159 b1
                     else continuation b1)
                    && continuation b2 && utf8_valid r2
                  else
                    match r2 with
                    | [] => false
                    | b3 :: r3 =>
                        in_range 240 244 b0
                        && (if in_range 240 240 b0 then in_range 144 191 b1
                            else if in_range 244 244 b0 then in_range 128 143 b1
                            else continuation b1)
                        && continuation b2 && continuation b3 && utf8_valid r3
                    end
              end
        end
  end.

(** [b.decode('utf-8')] *)
Definition bytes_decode_utf8 (b : list byte) : result string :=
  if utf8_valid b then Ret (string_of_list_byte b)
  else Raise (Exn UnicodeDecodeError "'utf-8' codec can't decode bytes").

(** ** The Python runtime the tracer calls into *)

(** The library functions the tracer calls.  Nothing is assumed of what
    they return or raise: [json.loads] raises [JSONDecodeError] on text
    that is not JSON, and also [ValueError] on an integer literal of
    more digits than the interpreter converts and [RecursionError] on
    nesting deeper than it follows; [json.dumps] and [str] raise on such
    values as well.  The one law is that the [str] of a text is the
    text. *)
Class PyRuntime : Type := {
  (** [json.loads(text)] *)
  json_loads : string -> result pyval;
  (** [json.dumps(value, ensure_ascii=False)] *)
  json_dumps : pyval -> result string;
  (** [json.dumps(value, indent=2, ensure_ascii=False)] *)
  json_dumps_indent : pyval -> result string;
  (** [str(value)], which is also what an f-string field and [print]
      write *)
  py_str : pyval -> result string;
  py_str_text : forall s, py_str (PyStr s) = Ret s
}.

(** ** The collaborators *)

Inductive event_stream : Type :=
| StreamEnd                                          (* exhausted *)
| StreamYield (event : pyval) (rest : event_stream)  (* the next record *)
| StreamRaise (e : exn).                             (* reading raises *)

Record agent_response : Type := { completion : event_stream }.

(** The stream that yields the records of a list and ends. *)
Fixpoint stream_of (events : list pyval) : event_stream :=
  match events with
  | [] => StreamEnd
  | ev :: rest => StreamYield ev (stream_of rest)
  end.

(** The exception that ends the reading of a stream, if one does. *)
Fixpoint stream_failure (stream : event_stream) : option exn :=
  match stream with
  | StreamEnd => None
  | StreamRaise e => Some e
  | StreamYield _ rest => stream_failure rest
  end.

Class Environment : Type := {
  (** [str(uuid.uuid4())], by the number of identities minted before. *)
  uuid4 : nat -> string;
  (** [datetime.now().isoformat()] *)
  datetime_now_isoformat : string;
  (** [os.getenv(name)] *)
  getenv : string -> option string;
  (** [bedrock.invoke_agent(agentId, agentAliasId, sessionId, enableTrace,
      inputText)] *)
  invoke_agent :
    option string -> option string -> string -> bool -> string ->
    result agent_response
}.

Definition py_of_env (v : option string) : pyval :=
  match v with Some s => PyStr s | None => PyNone end.

(** ** The world: what the collaborators have been asked to do *)

Definition handle : Type := nat.

Inductive call : Type :=
| LangfuseTrace (h : handle) (id name : string) (input metadata : pyval)
| OpenSpan (parent h : handle) (name : string) (input : pyval)
           (metadata : option pyval)
| OpenGeneration (parent h : handle) (name model : string)
                 (model_parameters input metadata : pyval)
| GenerationEnd (h : handle) (output usage_details : pyval)
| SpanEvent (parent : handle) (name : string) (input : pyval)
            (metadata : option pyval)
| SpanEnd (h : handle) (error : option string)
| TraceUpdate (h : handle) (metadata : pyval)
| InvokeAgent (agentId agentAliasId : option string) (sessionId : string)
              (enableTrace : bool) (inputText : string).

Record world : Type := World {
  next_handle : handle;       (* the next handle the Langfuse client issues *)
  uuids_minted : nat;         (* identities minted so far *)
  stdout : list string;       (* lines printed *)
  calls : list call           (* collaborator calls, oldest first *)
}.

Definition initial_world : world := World 0 0 [] [].

(** ** State and exceptions *)

Definition M (A : Type) : Type := world -> result A * world.

Definition ret {A} (a : A) : M A := fun w => (Ret a, w).

Definition raise {A} (e : exn) : M A := fun w => (Raise e, w).

Definition lift {A} (r : result A) : M A := fun w => (r, w).

Definition bind {A B} (m : M A) (k : A -> M B) : M B :=
  fun w =>
    match m w with
    | (Ret a, w') => k a w'
    | (Raise e, w') => (Raise e, w')
    end.

Notation "'do' x <- m ; k" := (bind m (fun x => k))
  (at level 10, x name, m at level 100, k at level 200).
Notation "'do' ' pat <- m ; k" := (bind m (fun x => match x with pat => k end))
  (at level 10, pat pattern, m at level 100, k at level 200).

(** [try: body except Exception as e: handler(e)] *)
Definition try_except {A} (body : M A) (handler : exn -> M A) : M A :=
  fun w =>
    match body w with
    | (Ret a, w') => (Ret a, w')
    | (Raise e, w') => handler e w'
    end.

(** A [try] whose handler asks whether a local of the body is bound:
    [first] binds the local, [rest] is the body after it, and the handler
    receives the local when the exception came after the binding. *)
Definition try_except_locals {L A} (first : M L) (rest : L -> M A)
    (handler : exn -> option L -> M A) : M A :=
  fun w =>
    match first w with
    | (Raise e, w1) => handler e None w1
    | (Ret x, w1) =>
        match rest x w1 with
        | (Ret a, w2) => (Ret a, w2)
        | (Raise e, w2) => handler e (Some x) w2
        end
    end.

Definition record_call (c : call) : M unit :=
  fun w => (Ret tt,
            World (next_handle w) (uuids_minted w) (stdout w) (calls w ++ [c])).

Definition fresh_handle : M handle :=
  fun w => (Ret (next_handle w),
            World (S (next_handle w)) (uuids_minted w) (stdout w) (calls w)).

(** ** The Langfuse client *)

Record trace_client : Type := { trace_handle : handle; id : string }.

(** [langfuse.trace(id, name, input, metadata)] *)
Definition langfuse_trace (trace_id name : string) (input metadata : pyval)
  : M trace_client :=
  do h <- fresh_handle;
  do _ <- record_call (LangfuseTrace h trace_id name input metadata);
  ret {| trace_handle := h; id := trace_id |}.

(** [parent.span(name, input, metadata)] *)
Definition client_span (parent : handle) (name : string) (input : pyval)
    (metadata : option pyval) : M handle :=
  do h <- fresh_handle;
  do _ <- record_call (OpenSpan parent h name input metadata);
  ret h.

(** [parent.generation(name, model, model_parameters, input, metadata)] *)
Definition client_generation (parent : handle) (name model : string)
    (model_parameters input metadata : pyval) : M handle :=
  do h <- fresh_handle;
  do _ <- record_call
            (OpenGeneration parent h name model model_parameters input metadata);
  ret h.

(** [generation.end(output, usage_details)] *)
Definition generation_end (h : handle) (output usage_details : pyval) : M unit :=
  record_call (GenerationEnd h output usage_details).

(** [parent.event(name, input, metadata)] *)
Definition client_event (parent : handle) (name : string) (input : pyval)
    (metadata : option pyval) : M unit :=
  record_call (SpanEvent parent name input metadata).

(** [span.end(error)] *)
Definition span_end (h : handle) (error : option string) : M unit :=
  record_call (SpanEnd h error).

(** [trace.update(metadata)] *)
Definition trace_update (t : trace_client) (metadata : pyval) : M unit :=
  record_call (TraceUpdate (trace_handle t) metadata).

(** ** The tracer *)

Section BedrockLangfuseTracer.

Context {runtime : PyRuntime} {environment : Environment}.

(** [self.debug] *)
Variable debug : bool.

Definition print (line : string) : M unit :=
  fun w => (Ret tt,
            World (next_handle w) (uuids_minted w) (stdout w ++ [line]) (calls w)).

(** [str(uuid.uuid4())] *)
Definition uuid_uuid4 : M string :=
  fun w => (Ret (uuid4 (uuids_minted w)),
            World (next_handle w) (S (uuids_minted w)) (stdout w) (calls w)).

(** [self.bedrock.invoke_agent(...)] *)
Definition bedrock_invoke_agent (agentId agentAliasId : option string)
    (sessionId : string) (enableTrace : bool) (inputText : string)
  : M agent_response :=
  do _ <- record_call
            (InvokeAgent agentId agentAliasId sessionId enableTrace inputText);
  lift (invoke_agent agentId agentAliasId sessionId enableTrace inputText).

Definition _debug_print (message : string) (data : option pyval) : M unit :=
  if debug then
    do _ <- print ("DEBUG: " ++ message);
    match data with
    | Some d =>
        match d with
        | PyDict _ | PyList _ =>
            do text <- lift (json_dumps_indent d);
            print text
        | _ =>
            do text <- lift (py_str d);
            print text
        end
    | None => ret tt
    end
  else ret tt.

Definition create_base_trace (session_id input_text : string) : M trace_client :=
  langfuse_trace session_id "Bedrock Agent Invocation" (PyStr input_text)
    (PyDict [("timestamp", PyStr datetime_now_isoformat);
             ("agent_id", py_of_env (getenv "AGENT_ID"));
             ("agent_alias_id", py_of_env (getenv "AGENT_ALIAS_ID"))]).

Definition _safe_json_loads (data : pyval) : result pyval :=
  match data with
  | PyStr s =>
      try_except_classes (json_loads s) [JSONDecodeError]
        (Ret (PyDict [("content", data)]))
  | PyBytes b =>
      try_except_classes
        (let? text := bytes_decode_utf8 b in json_loads text)
        [JSONDecodeError; UnicodeDecodeError]
        (let? text := py_str data in Ret (PyDict [("content", PyStr text)]))
  | PyDict _ => Ret data
  | _ => let? text := py_str data in Ret (PyDict [("content", PyStr text)])
  end.

Definition _process_observation (parent_span : handle) (observation : pyval)
  : M unit :=
  do trace_id <- lift (py_get observation "traceId" (PyStr ""));
  do obs_type <- lift (py_get observation "type" (PyStr ""));
  do has_final <- lift (py_contains "finalResponse" observation);
  do _ <-
    (if has_final : bool then
       do final_response <- lift (py_getitem observation "finalResponse");
       do text <- lift (py_get final_response "text" (PyStr ""));
       client_event parent_span "final_response" text
         (Some (PyDict [("trace_id", trace_id); ("type", obs_type)]))
     else ret tt);
  do has_collaborator <-
    lift (py_contains "agentCollaboratorInvocationOutput" observation);
  if has_collaborator : bool then
    do output <- lift (py_getitem observation "agentCollaboratorInvocationOutput");
    do name <- lift (py_get output "agentCollaboratorName" (PyStr "unknown"));
    do name_text <- lift (py_str name);
    do collaborator_output <- lift (py_get output "output" (PyDict []));
    do input <- lift (json_dumps collaborator_output);
    do arn <- lift (py_get output "agentCollaboratorAliasArn" (PyStr ""));
    do collaborator_span <-
      client_span parent_span ("collaborator_" ++ name_text) (PyStr input)
        (Some (PyDict [("collaborator_arn", arn); ("trace_id", trace_id)]));
    span_end collaborator_span None
  else ret tt.

(** The usage recorded for a [modelInvocationOutput]: the statements
    [usage = {}; if "metadata" in output and "usage" in output["metadata"]:
    usage = {...}] of [_process_orchestration_trace]. *)
Definition usage_of (output : pyval) : result pyval :=
  let? has_metadata := py_contains "metadata" output in
  let? has_usage :=
    (if has_metadata : bool then
       let? metadata := py_getitem output "metadata" in
       py_contains "usage" metadata
     else Ret false) in
  if has_usage : bool then
    let? metadata := py_getitem output "metadata" in
    let? usage := py_getitem metadata "usage" in
    let? input_tokens := py_get usage "inputTokens" (PyInt 0) in
    let? metadata' := py_getitem output "metadata" in
    let? usage' := py_getitem metadata' "usage" in
    let? output_tokens := py_get usage' "outputTokens" (PyInt 0) in
    Ret (PyDict [("input", input_tokens); ("output", output_tokens);
                 ("unit", PyStr "TOKENS")])
  else Ret (PyDict []).

Definition _process_orchestration_trace (parent_span : handle)
    (orchestration_trace : pyval) : M unit :=
  (* Model Invocation Input *)
  do has_input <- lift (py_contains "modelInvocationInput" orchestration_trace);
  do _ <-
    (if has_input : bool then
       do input_data <- lift (py_getitem orchestration_trace "modelInvocationInput");
       do model_parameters <-
         lift (py_get input_data "inferenceConfiguration" (PyDict []));
       do text <- lift (py_get input_data "text" (PyStr ""));
       do type <- lift (py_get input_data "type" (PyStr ""));
       do trace_id <- lift (py_get input_data "traceId" (PyStr ""));
       do generation <-
         client_generation parent_span "model_invocation" "bedrock-agent"
           model_parameters text
           (PyDict [("type", type); ("trace_id", trace_id)]);
       (* Model Invocation Output *)
       do has_output <-
         lift (py_contains "modelInvocationOutput" orchestration_trace);
       if has_output : bool then
         do output <- lift (py_getitem orchestration_trace "modelInvocationOutput");
         do raw <- lift (py_get output "rawResponse" (PyDict []));
         do content <- lift (py_get raw "content" (PyStr ""));
         do raw_response <- lift (_safe_json_loads content);
         do usage <- lift (usage_of output);
         do dumped <- lift (json_dumps raw_response);
         generation_end generation (PyStr dumped) usage
       else ret tt
     else ret tt);
  (* Rationale *)
  do has_rationale <- lift (py_contains "rationale" orchestration_trace);
  do _ <-
    (if has_rationale : bool then
       do rationale <- lift (py_getitem orchestration_trace "rationale");
       do text <- lift (py_get rationale "text" (PyStr ""));
       do rationale' <- lift (py_getitem orchestration_trace "rationale");
       do trace_id <- lift (py_get rationale' "traceId" (PyStr ""));
       client_event parent_span "rationale" text
         (Some (PyDict [("trace_id", trace_id)]))
     else ret tt);
  (* Observation *)
  do has_observation <- lift (py_contains "observation" orchestration_trace);
  if has_observation : bool then
    do observation <- lift (py_getitem orchestration_trace "observation");
    _process_observation parent_span observation
  else ret tt.

Definition _process_trace_chunk (chunk : pyval) (parent_span : handle) : M unit :=
  do trace_data <- lift (py_get chunk "trace" (PyDict []));
  do inner <- lift (py_get trace_data "trace" (PyDict []));
  do has_orchestration <- lift (py_contains "orchestrationTrace" inner);
  if has_orchestration : bool then
    do inner' <- lift (py_getitem trace_data "trace");
    do orchestration_trace <- lift (py_getitem inner' "orchestrationTrace");
    _process_orchestration_trace parent_span orchestration_trace
  else ret tt.

(** The loop [for event in response['completion']], with its
    per-event [try]. *)
Fixpoint process_completion (stream : event_stream) (orchestration_span : handle)
  : M unit :=
  match stream with
  | StreamEnd => ret tt
  | StreamRaise e => raise e
  | StreamYield event rest =>
      do _ <-
        try_except
          (_process_trace_chunk event orchestration_span)
          (fun chunk_error =>
             do _ <- _debug_print
                       ("Error processing chunk: " ++ exn_message chunk_error) None;
             client_event orchestration_span "chunk_processing_error"
               (PyStr (exn_message chunk_error)) None);
      process_completion rest orchestration_span
  end.

Definition trace_agent_interaction (input_text : string) : M pyval :=
  do session_id <- uuid_uuid4;
  do trace <- create_base_trace session_id input_text;
  try_except_locals
    (client_span (trace_handle trace) "orchestration" (PyStr input_text) None)
    (fun orchestration_span =>
       do _ <- _debug_print "Invoking Bedrock agent..." None;
       do response <-
         bedrock_invoke_agent (getenv "AGENT_ID") (getenv "AGENT_ALIAS_ID")
           session_id true input_text;
       do _ <- _debug_print "Processing response stream..." None;
       do _ <- process_completion (completion response) orchestration_span;
       do _ <- span_end orchestration_span None;
       ret (PyDict [("status", PyStr "success"); ("trace_id", PyStr (id trace))]))
    (fun e orchestration_span =>
       let error_msg := exn_message e in
       do _ <- _debug_print ("Error in trace_agent_interaction: " ++ error_msg) None;
       do _ <-
         match orchestration_span with
         | Some span => span_end span (Some error_msg)
         | None => ret tt
         end;
       do _ <- trace_update trace (PyDict [("error", PyStr error_msg)]);
       ret (PyDict [("status", PyStr "error"); ("message", PyStr error_msg)])).

End BedrockLangfuseTracer.

(** ** A reference runtime

    An executable [PyRuntime], used to run the tracer on concrete records:
    [json.loads], [json.dumps] and [str] as CPython 3.11 computes them,
    with the C accelerator of the [json] module and the interpreter's
    default limits.  A [dict] has text keys here, as in [pyval]. *)

Module Reference.

Local Open Scope string_scope.

Definition dquote : ascii := "034"%char.
Definition backslash : ascii := "\"%char.
Definition newline : ascii := ascii_of_nat 10.

Definition code (c : ascii) : nat := nat_of_ascii c.

Definition decimal (n : Z) : string := NilZero.string_of_int (Z.to_int n).

Definition decimal_of_nat (n : nat) : string := decimal (Z.of_nat n).

(** The values of a list of results, or the first exception. *)
Fixpoint collect {A} (rs : list (result A)) : result (list A) :=
  match rs with
  | [] => Ret []
  | r :: rest =>
      let? a := r in
      let? b := collect rest in
      Ret (a :: b)
  end.

(** *** The interpreter's limits *)

(** [sys.get_int_max_str_digits()]: an [int] of more decimal digits is
    neither read from text nor written as text. *)
Definition int_max_str_digits : nat := 4300.

(** How deep containers may nest inside one call of [json.loads],
    [json.dumps] or [str] before the interpreter raises
    [RecursionError].  The interpreter allows 1000 nested calls, those
    of the caller included, so the depth left depends on where the call
    is made: when the tracer runs as a script, 990 levels are left for
    [json.loads], 990 or 991 for [json.dumps] and 992 or 993 for [str].
    The reference allows 990 levels in each of them: it is exact up to
    that depth. *)
Definition recursion_budget : nat := 990.

Definition recursion_error (doing : string) : exn :=
  Exn RecursionError ("maximum recursion depth exceeded " ++ doing).

Definition limit_exceeded : string :=
  "Exceeds the limit (" ++ decimal_of_nat int_max_str_digits
  ++ " digits) for integer string conversion".

Definition limit_advice : string :=
  "; use sys.set_int_max_str_digits() to increase the limit".

(** Raised by [int(text)] on [digits] digits. *)
Definition too_long_for_int (digits : nat) : exn :=
  Exn ValueError
    (limit_exceeded ++ ": value has " ++ decimal_of_nat digits ++ " digits"
     ++ limit_advice).

(** Raised by [str(n)] and [repr(n)]. *)
Definition too_long_for_str : exn := Exn ValueError (limit_exceeded ++ limit_advice).

(** [repr(n)] of an [int] *)
Definition int_repr (n : Z) : result string :=
  if (int_max_str_digits <? String.length (decimal (Z.abs n)))%nat
  then Raise too_long_for_str
  else Ret (decimal n).

(** *** Text *)

Definition byte_of (c : ascii) : N := N_of_ascii c.

Definition chr (n : N) : ascii := ascii_of_N n.

(** A byte that continues a UTF-8 sequence. *)
Definition is_continuation (c : ascii) : bool :=
  (128 <=? byte_of c)%N && (byte_of c <? 192)%N.

(** The number of code points of a text. *)
Fixpoint text_length (s : string) : nat :=
  match s with
  | EmptyString => 0
  | String c rest =>
      if is_continuation c then text_length rest else S (text_length rest)
  end.

Definition low6 (c : ascii) : N := (byte_of c mod 64)%N.

(** The code points of a text. *)
Fixpoint code_points (s : string) : list N :=
  match s with
  | EmptyString => []
  | String c0 r0 =>
      let b0 := byte_of c0 in
      if (b0 <? 192)%N then b0 :: code_points r0
      else
        match r0 with
        | EmptyString => [b0]
        | String c1 r1 =>
            if (b0 <? 224)%N then
              ((b0 - 192) * 64 + low6 c1)%N :: code_points r1
            else
              match r1 with
              | EmptyString => [b0]
              | String c2 r2 =>
                  if (b0 <? 240)%N then
                    (((b0 - 224) * 64 + low6 c1) * 64 + low6 c2)%N
                      :: code_points r2
                  else
                    match r2 with
                    | EmptyString => [b0]
                    | String c3 r3 =>
                        ((((b0 - 240) * 64 + low6 c1) * 64 + low6 c2) * 64
                         + low6 c3)%N :: code_points r3
                    end
              end
        end
  end.

(** The UTF-8 encoding of a code point. *)
Definition utf8_encode (cp : N) : string :=
  if (cp <? 128)%N then String (chr cp) EmptyString
  else if (cp <? 2048)%N then
    String (chr (192 + cp / 64)) (String (chr (128 + cp mod 64)) EmptyString)
  else if (cp <? 65536)%N then
    String (chr (224 + cp / 4096))
      (String (chr (128 + (cp / 64) mod 64))
         (String (chr (128 + cp mod 64)) EmptyString))
  else
    String (chr (240 + cp / 262144))
      (String (chr (128 + (cp / 4096) mod 64))
         (String (chr (128 + (cp / 64) mod 64))
            (String (chr (128 + cp mod 64)) EmptyString))).

Definition hex_digit (n : N) : ascii :=
  if (n <? 10)%N then chr (48 + n) else chr (87 + n).

(** [n] in [width] hexadecimal digits, lower case. *)
Fixpoint hex (width : nat) (n : N) : string :=
  match width with
  | O => EmptyString
  | S w => hex w (n / 16) ++ String (hex_digit (n mod 16)) EmptyString
  end.

(** The code points from U+0080 on that [str.isprintable] refuses, as
    ranges with both ends included (Unicode 14.0.0: the categories Cc,
    Cf, Cs, Co, Cn, Zl, Zp and Zs). *)
Definition not_printable : list (N * N) :=
  [(128, 160); (173, 173); (888, 889); (896, 899); (907, 907); (909, 909);
   (930, 930); (1328, 1328); (1367, 1368); (1419, 1420); (1424, 1424);
   (1480, 1487); (1515, 1518); (1525, 1541); (1564, 1564); (1757, 1757);
   (1806, 1807); (1867, 1868); (1970, 1983); (2043, 2044); (2094, 2095);
   (2111, 2111); (2140, 2141); (2143, 2143); (2155, 2159); (2191, 2199);
   (2274, 2274); (2436, 2436); (2445, 2446); (2449, 2450); (2473, 2473);
   (2481, 2481); (2483, 2485); (2490, 2491); (2501, 2502); (2505, 2506);
   (2511, 2518); (2520, 2523); (2526, 2526); (2532, 2533); (2559, 2560);
   (2564, 2564); (2571, 2574); (2577, 2578); (2601, 2601); (2609, 2609);
   (2612, 2612); (2615, 2615); (2618, 2619); (2621, 2621); (2627, 2630);
   (2633, 2634); (2638, 2640); (2642, 2648); (2653, 2653); (2655, 2661);
   (2679, 2688); (2692, 2692); (2702, 2702); (2706, 2706); (2729, 2729);
   (2737, 2737); (2740, 2740); (2746, 2747); (2758, 2758); (2762, 2762);
   (2766, 2767); (2769, 2783); (2788, 2789); (2802, 2808); (2816, 2816);
   (2820, 2820); (2829, 2830); (2833, 2834); (2857, 2857); (2865, 2865);
   (2868, 2868); (2874, 2875); (2885, 2886); (2889, 2890); (2894, 2900);
   (2904, 2907); (2910, 2910); (2916, 2917); (2936, 2945); (2948, 2948);
   (2955, 2957); (2961, 2961); (2966, 2968); (2971, 2971); (2973, 2973);
   (2976, 2978); (2981, 2983); (2987, 2989); (3002, 3005); (3011, 3013);
   (3017, 3017); (3022, 3023); (3025, 3030); (3032, 3045); (3067, 3071);
   (3085, 3085); (3089, 3089); (3113, 3113); (3130, 3131); (3141, 3141);
   (3145, 3145); (3150, 3156); (3159, 3159); (3163, 3164); (3166, 3167);
   (3172, 3173); (3184, 3190); (3213, 3213); (3217, 3217); (3241, 3241);
   (3252, 3252); (3258, 3259); (3269, 3269); (3273, 3273); (3278, 3284);
   (3287, 3292); (3295, 3295); (3300, 3301); (3312, 3312); (3315, 3327);
   (3341, 3341); (3345, 3345); (3397, 3397); (3401, 3401); (3408, 3411);
   (3428, 3429); (3456, 3456); (3460, 3460); (3479, 3481); (3506, 3506);
   (3516, 3516); (3518, 3519); (3527, 3529); (3531, 3534); (3541, 3541);
   (3543, 3543); (3552, 3557); (3568, 3569); (3573, 3584); (3643, 3646);
   (3676, 3712); (3715, 3715); (3717, 3717); (3723, 3723); (3748, 3748);
   (3750, 3750); (3774, 3775); (3781, 3781); (3783, 3783); (3790, 3791);
   (3802, 3803); (3808, 3839); (3912, 3912); (3949, 3952); (3992, 3992);
   (4029, 4029); (4045, 4045); (4059, 4095); (4294, 4294); (4296, 4300);
   (4302, 4303); (4681, 4681); (4686, 4687); (4695, 4695); (4697, 4697);
   (4702, 4703); (4745, 4745); (4750, 4751); (4785, 4785); (4790, 4791);
   (4799, 4799); (4801, 4801); (4806, 4807); (4823, 4823); (4881, 4881);
   (4886, 4887); (4955, 4956); (4989, 4991); (5018, 5023); (5110, 5111);
   (5118, 5119); (5760, 5760); (5789, 5791); (5881, 5887); (5910, 5918);
   (5943, 5951); (5972, 5983); (5997, 5997); (6001, 6001); (6004, 6015);
   (6110, 6111); (6122, 6127); (6138, 6143); (6158, 6158); (6170, 6175);
   (6265, 6271); (6315, 6319); (6390, 6399); (6431, 6431); (6444, 6447);
   (6460, 6463); (6465, 6467); (6510, 6511); (6517, 6527); (6572, 6575);
   (6602, 6607); (6619, 6621); (6684, 6685); (6751, 6751); (6781, 6782);
   (6794, 6799); (6810, 6815); (6830, 6831); (6863, 6911); (6989, 6991);
   (7039, 7039); (7156, 7163); (7224, 7226); (7242, 7244); (7305, 7311);
   (7355, 7356); (7368, 7375); (7419, 7423); (7958, 7959); (7966, 7967);
   (8006, 8007); (8014, 8015); (8024, 8024); (8026, 8026); (8028, 8028);
   (8030, 8030); (8062, 8063); (8117, 8117); (8133, 8133); (8148, 8149);
   (8156, 8156); (8176, 8177); (8181, 8181); (8191, 8207); (8232, 8239);
   (8287, 8303); (8306, 8307); (8335, 8335); (8349, 8351); (8385, 8399);
   (8433, 8447); (8588, 8591); (9255, 9279); (9291, 9311); (11124, 11125);
   (11158, 11158); (11508, 11512); (11558, 11558); (11560, 11564);
   (11566, 11567); (11624, 11630); (11633, 11646); (11671, 11679);
   (11687, 11687); (11695, 11695); (11703, 11703); (11711, 11711);
   (11719, 11719); (11727, 11727); (11735, 11735); (11743, 11743);
   (11870, 11903); (11930, 11930); (12020, 12031); (12246, 12271);
   (12284, 12288); (12352, 12352); (12439, 12440); (12544, 12548);
   (12592, 12592); (12687, 12687); (12772, 12783); (12831, 12831);
   (42125, 42127); (42183, 42191); (42540, 42559); (42744, 42751);
   (42955, 42959); (42962, 42962); (42964, 42964); (42970, 42993);
   (43053, 43055); (43066, 43071); (43128, 43135); (43206, 43213);
   (43226, 43231); (43348, 43358); (43389, 43391); (43470, 43470);
   (43482, 43485); (43519, 43519); (43575, 43583); (43598, 43599);
   (43610, 43611); (43715, 43738); (43767, 43776); (43783, 43784);
   (43791, 43792); (43799, 43807); (43815, 43815); (43823, 43823);
   (43884, 43887); (44014, 44015); (44026, 44031); (55204, 55215);
   (55239, 55242); (55292, 63743); (64110, 64111); (64218, 64255);
   (64263, 64274); (64280, 64284); (64311, 64311); (64317, 64317);
   (64319, 64319); (64322, 64322); (64325, 64325); (64451, 64466);
   (64912, 64913); (64968, 64974); (64976, 65007); (65050, 65055);
   (65107, 65107); (65127, 65127); (65132, 65135); (65141, 65141);
   (65277, 65280); (65471, 65473); (65480, 65481); (65488, 65489);
   (65496, 65497); (65501, 65503); (65511, 65511); (65519, 65531);
   (65534, 65535); (65548, 65548); (65575, 65575); (65595, 65595);
   (65598, 65598); (65614, 65615); (65630, 65663); (65787, 65791);
   (65795, 65798); (65844, 65846); (65935, 65935); (65949, 65951);
   (65953, 65999); (66046, 66175); (66205, 66207); (66257, 66271);
   (66300, 66303); (66340, 66348); (66379, 66383); (66427, 66431);
   (66462, 66462); (66500, 66503); (66518, 66559); (66718, 66719);
   (66730, 66735); (66772, 66775); (66812, 66815); (66856, 66863);
   (66916, 66926); (66939, 66939); (66955, 66955); (66963, 66963);
   (66966, 66966); (66978, 66978); (66994, 66994); (67002, 67002);
   (67005, 67071); (67383, 67391); (67414, 67423); (67432, 67455);
   (67462, 67462); (67505, 67505); (67515, 67583); (67590, 67591);
   (67593, 67593); (67638, 67638); (67641, 67643); (67645, 67646);
   (67670, 67670); (67743, 67750); (67760, 67807); (67827, 67827);
   (67830, 67834); (67868, 67870); (67898, 67902); (67904, 67967);
   (68024, 68027); (68048, 68049); (68100, 68100); (68103, 68107);
   (68116, 68116); (68120, 68120); (68150, 68151); (68155, 68158);
   (68169, 68175); (68185, 68191); (68256, 68287); (68327, 68330);
   (68343, 68351); (68406, 68408); (68438, 68439); (68467, 68471);
   (68498, 68504); (68509, 68520); (68528, 68607); (68681, 68735);
   (68787, 68799); (68851, 68857); (68904, 68911); (68922, 69215);
   (69247, 69247); (69290, 69290); (69294, 69295); (69298, 69375);
   (69416, 69423); (69466, 69487); (69514, 69551); (69580, 69599);
   (69623, 69631); (69710, 69713); (69750, 69758); (69821, 69821);
   (69827, 69839); (69865, 69871); (69882, 69887); (69941, 69941);
   (69960, 69967); (70007, 70015); (70112, 70112); (70133, 70143);
   (70162, 70162); (70207, 70271); (70279, 70279); (70281, 70281);
   (70286, 70286); (70302, 70302); (70314, 70319); (70379, 70383);
   (70394, 70399); (70404, 70404); (70413, 70414); (70417, 70418);
   (70441, 70441); (70449, 70449); (70452, 70452); (70458, 70458);
   (70469, 70470); (70473, 70474); (70478, 70479); (70481, 70486);
   (70488, 70492); (70500, 70501); (70509, 70511); (70517, 70655);
   (70748, 70748); (70754, 70783); (70856, 70863); (70874, 71039);
   (71094, 71095); (71134, 71167); (71237, 71247); (71258, 71263);
   (71277, 71295); (71354, 71359); (71370, 71423); (71451, 71452);
   (71468, 71471); (71495, 71679); (71740, 71839); (71923, 71934);
   (71943, 71944); (71946, 71947); (71956, 71956); (71959, 71959);
   (71990, 71990); (71993, 71994); (72007, 72015); (72026, 72095);
   (72104, 72105); (72152, 72153); (72165, 72191); (72264, 72271);
   (72355, 72367); (72441, 72703); (72713, 72713); (72759, 72759);
   (72774, 72783); (72813, 72815); (72848, 72849); (72872, 72872);
   (72887, 72959); (72967, 72967); (72970, 72970); (73015, 73017);
   (73019, 73019); (73022, 73022); (73032, 73039); (73050, 73055);
   (73062, 73062); (73065, 73065); (73103, 73103); (73106, 73106);
   (73113, 73119); (73130, 73439); (73465, 73647); (73649, 73663);
   (73714, 73726); (74650, 74751); (74863, 74863); (74869, 74879);
   (75076, 77711); (77811, 77823); (78895, 82943); (83527, 92159);
   (92729, 92735); (92767, 92767); (92778, 92781); (92863, 92863);
   (92874, 92879); (92910, 92911); (92918, 92927); (92998, 93007);
   (93018, 93018); (93026, 93026); (93048, 93052); (93072, 93759);
   (93851, 93951); (94027, 94030); (94088, 94094); (94112, 94175);
   (94181, 94191); (94194, 94207); (100344, 100351); (101590, 101631);
   (101641, 110575); (110580, 110580); (110588, 110588); (110591, 110591);
   (110883, 110927); (110931, 110947); (110952, 110959); (111356, 113663);
   (113771, 113775); (113789, 113791); (113801, 113807); (113818, 113819);
   (113824, 118527); (118574, 118575); (118599, 118607); (118724, 118783);
   (119030, 119039); (119079, 119080); (119155, 119162); (119275, 119295);
   (119366, 119519); (119540, 119551); (119639, 119647); (119673, 119807);
   (119893, 119893); (119965, 119965); (119968, 119969); (119971, 119972);
   (119975, 119976); (119981, 119981); (119994, 119994); (119996, 119996);
   (120004, 120004); (120070, 120070); (120075, 120076); (120085, 120085);
   (120093, 120093); (120122, 120122); (120127, 120127); (120133, 120133);
   (120135, 120137); (120145, 120145); (120486, 120487); (120780, 120781);
   (121484, 121498); (121504, 121504); (121520, 122623); (122655, 122879);
   (122887, 122887); (122905, 122906); (122914, 122914); (122917, 122917);
   (122923, 123135); (123181, 123183); (123198, 123199); (123210, 123213);
   (123216, 123535); (123567, 123583); (123642, 123646); (123648, 124895);
   (124903, 124903); (124908, 124908); (124911, 124911); (124927, 124927);
   (125125, 125126); (125143, 125183); (125260, 125263); (125274, 125277);
   (125280, 126064); (126133, 126208); (126270, 126463); (126468, 126468);
   (126496, 126496); (126499, 126499); (126501, 126502); (126504, 126504);
   (126515, 126515); (126520, 126520); (126522, 126522); (126524, 126529);
   (126531, 126534); (126536, 126536); (126538, 126538); (126540, 126540);
   (126544, 126544); (126547, 126547); (126549, 126550); (126552, 126552);
   (126554, 126554); (126556, 126556); (126558, 126558); (126560, 126560);
   (126563, 126563); (126565, 126566); (126571, 126571); (126579, 126579);
   (126584, 126584); (126589, 126589); (126591, 126591); (126602, 126602);
   (126620, 126624); (126628, 126628); (126634, 126634); (126652, 126703);
   (126706, 126975); (127020, 127023); (127124, 127135); (127151, 127152);
   (127168, 127168); (127184, 127184); (127222, 127231); (127406, 127461);
   (127491, 127503); (127548, 127551); (127561, 127567); (127570, 127583);
   (127590, 127743); (128728, 128732); (128749, 128751); (128765, 128767);
   (128884, 128895); (128985, 128991); (129004, 129007); (129009, 129023);
   (129036, 129039); (129096, 129103); (129114, 129119); (129160, 129167);
   (129198, 129199); (129202, 129279); (129620, 129631); (129646, 129647);
   (129653, 129655); (129661, 129663); (129671, 129679); (129709, 129711);
   (129723, 129727); (129734, 129743); (129754, 129759); (129768, 129775);
   (129783, 129791); (129939, 129939); (129995, 130031); (130042, 131071);
   (173792, 173823); (177977, 177983); (178206, 178207); (183970, 183983);
   (191457, 194559); (195102, 196607); (201547, 917759); (918000, 1114111)]%N.

Definition is_printable (cp : N) : bool :=
  negb (existsb (fun range => (fst range <=? cp)%N && (cp <=? snd range)%N)
                not_printable).

(** *** Floats *)

(** [num / den] divided by [2 ^ e], as a fraction. *)
Definition scale2 (num den e : Z) : Z * Z :=
  if (0 <=? e)%Z then (num, den * 2 ^ e)%Z else (num * 2 ^ (- e), den)%Z.

(** The integer nearest to [num / den], the even one of two. *)
Definition nearest_even (num den : Z) : Z :=
  let q := (num / den)%Z in
  match (2 * (num mod den) ?= den)%Z with
  | Lt => q
  | Gt => (q + 1)%Z
  | Eq => if Z.even q then q else (q + 1)%Z
  end.

(** The [float] nearest to the fraction [num / den] of positive
    integers, with the sign [negative]: rounded to nearest, ties to
    even; infinite from 2^1024 on. *)
Definition float_of_fraction (negative : bool) (num den : Z) : float64 :=
  (* [x / 2 ^ e1] lies between 2^51 and 2^53 *)
  let e1 := (Z.log2 num - Z.log2 den - 52)%Z in
  let (n1, d1) := scale2 num den e1 in
  let e2 := if (2 ^ 52 <=? n1 / d1)%Z then e1 else (e1 - 1)%Z in
  let e := Z.max e2 (-1074) in
  let (n, d) := scale2 num den e in
  let m := nearest_even n d in
  let (m', e') := if (m =? 2 ^ 53)%Z then (2 ^ 52, e + 1)%Z else (m, e) in
  if (971 <? e')%Z then Infinite negative else Finite negative m' e'.

(** [digits * 10 ^ exponent], as a fraction. *)
Definition scale10 (digits exponent : Z) : Z * Z :=
  if (0 <=? exponent)%Z then (digits * 10 ^ exponent, 1)%Z
  else (digits, 10 ^ (- exponent))%Z.

(** [float(text)] for the decimal [digits * 10 ^ exponent]. *)
Definition float_of_decimal (negative : bool) (digits exponent : Z) : float64 :=
  if (digits =? 0)%Z then Finite negative 0 (-1074)
  else let (num, den) := scale10 digits exponent in
       float_of_fraction negative num den.

Definition float_eqb (x y : float64) : bool :=
  match x, y with
  | Finite s m e, Finite s' m' e' => Bool.eqb s s' && (m =? m')%Z && (e =? e')%Z
  | Infinite s, Infinite s' => Bool.eqb s s'
  | _, _ => false
  end.

(** The exponent [t] of the first decimal digit of [num / den]:
    10^t <= num / den < 10^(t+1), searched from an estimate. *)
Fixpoint decimal_exponent (fuel : nat) (num den t : Z) : Z :=
  match fuel with
  | O => t
  | S fuel' =>
      let (a, b) := scale10 1 t in             (* 10^t *)
      let (a', b') := scale10 1 (t + 1) in     (* 10^(t+1) *)
      if (num * b <? a * den)%Z then decimal_exponent fuel' num den (t - 1)
      else if (a' * den <=? num * b')%Z then decimal_exponent fuel' num den (t + 1)
      else t
  end.

(** The digits of the shortest decimal that [float] reads back as the
    positive number [m * 2 ^ e], the one nearest to it if there are
    two, tried with 1, 2, ... digits: the integer [d] and the exponent
    [k] of d * 10^k. *)
Fixpoint shortest_digits (fuel : nat) (m e : Z) (t : Z) (n : Z) {struct fuel}
  : Z * Z :=
  let k := (t - n + 1)%Z in
  let (num, den) := scale2 m 1 (- e) in        (* m * 2^e *)
  (* [num / den] divided by 10^k *)
  let (a, b) :=
    if (0 <=? k)%Z then (num, den * 10 ^ k)%Z else (num * 10 ^ (- k), den)%Z in
  let lo := (a / b)%Z in
  let hi := (lo + 1)%Z in
  let nearest := if (2 * (a mod b) <=? b)%Z then lo else hi in
  let reads_back d := float_eqb (float_of_decimal false d k) (Finite false m e) in
  match reads_back lo, reads_back hi, fuel with
  | true, true, _ => (nearest, k)
  | true, false, _ => (lo, k)
  | false, true, _ => (hi, k)
  | false, false, S fuel' => shortest_digits fuel' m e t (n + 1)
  | false, false, O => (nearest, k)
  end.

Fixpoint strip_trailing_zeros_rev (s : list ascii) : list ascii :=
  match s with
  | c :: rest => if Ascii.eqb c "0" then strip_trailing_zeros_rev rest else s
  | [] => []
  end.

Definition strip_trailing_zeros (s : string) : string :=
  string_of_list_ascii (rev (strip_trailing_zeros_rev (rev (list_ascii_of_string s)))).

Fixpoint zeros (n : nat) : string :=
  match n with
  | O => EmptyString
  | S m => String "0" (zeros m)
  end.

(** [repr] of the positive number [m * 2 ^ e]: with an exponent when the
    decimal point falls more than 16 digits to the right of the first
    digit or more than 3 zeros to its left. *)
Definition positive_float_repr (m e : Z) : string :=
  let (num, den) := scale2 m 1 (- e) in
  let estimate := ((Z.log2 num - Z.log2 den) * 1233 / 4096)%Z in
  let t := decimal_exponent 8 num den estimate in
  let (d, k) := shortest_digits 16 m e t 1 in
  let all_digits := decimal d in
  let digits := strip_trailing_zeros all_digits in
  let point := (Z.of_nat (String.length all_digits) + k)%Z in
  let count := String.length digits in
  if (point <=? -4)%Z || (16 <? point)%Z then
    let exponent := (point - 1)%Z in
    let shown := decimal (Z.abs exponent) in
    String.substring 0 1 digits
    ++ (if (1 <? count)%nat then "." ++ String.substring 1 (count - 1) digits
        else "")
    ++ "e" ++ (if (exponent <? 0)%Z then "-" else "+")
    ++ (if (String.length shown <? 2)%nat then "0" ++ shown else shown)
  else if (point <=? 0)%Z then "0." ++ zeros (Z.to_nat (- point)) ++ digits
  else if (Z.of_nat count <=? point)%Z then
    digits ++ zeros (Z.to_nat point - count) ++ ".0"
  else
    String.substring 0 (Z.to_nat point) digits ++ "."
    ++ String.substring (Z.to_nat point) (count - Z.to_nat point) digits.

(** [repr(x)] of a [float] *)
Definition float_repr (x : float64) : string :=
  match x with
  | NaN => "nan"
  | Infinite false => "inf"
  | Infinite true => "-inf"
  | Finite negative m e =>
      (if negative then "-" else "")
      ++ (if (m =? 0)%Z then "0.0" else positive_float_repr m e)
  end.

(** *** Reading JSON *)

Definition is_ws (c : ascii) : bool :=
  match code c with
  | 32 | 9 | 10 | 13 => true
  | _ => false
  end.

Fixpoint skip_ws (s : string) : string :=
  match s with
  | String c rest => if is_ws c then skip_ws rest else s
  | EmptyString => s
  end.

Definition is_digit (c : ascii) : bool :=
  (48 <=? code c)%nat && (code c <=? 57)%nat.

Fixpoint strip_prefix (p s : string) : option string :=
  match p, s with
  | EmptyString, _ => Some s
  | String a p', String b s' => if Ascii.eqb a b then strip_prefix p' s' else None
  | String _ _, EmptyString => None
  end.

(** Why a document is refused: not JSON, with the message of the
    [JSONDecodeError] and the text that was left where it was noticed,
    or an exception of another class. *)
Inductive failure : Type :=
| Syntax (message : string) (more : string)
| Fatal (e : exn).

(** What reading a value gives: the value and the text left after it,
    or a failure. *)
Inductive scan (A : Type) : Type :=
| Scanned (a : A) (rest : string)
| Failed (f : failure).
Arguments Scanned {A} a rest.
Arguments Failed {A} f.

Definition expecting_value (more : string) : failure :=
  Syntax "Expecting value" more.

(** **** Numbers *)

Fixpoint read_digits (s : string) : string * string :=
  match s with
  | String c rest =>
      if is_digit c then
        let (ds, r) := read_digits rest in (String c ds, r)
      else (EmptyString, s)
  | EmptyString => (EmptyString, s)
  end.

Fixpoint digits_value (acc : Z) (ds : string) : Z :=
  match ds with
  | String c rest => digits_value (10 * acc + Z.of_nat (code c - 48)) rest
  | EmptyString => acc
  end.

(** The integer part: [0], or a non-zero digit and more digits. *)
Definition read_int_part (s : string) : option (string * string) :=
  match s with
  | String c rest =>
      if Ascii.eqb c "0" then Some ("0", rest)
      else if is_digit c then Some (read_digits s)
      else None
  | EmptyString => None
  end.

(** The digits of a fraction: a point and at least one digit. *)
Definition read_fraction (s : string) : string * string :=
  match s with
  | String c rest =>
      if Ascii.eqb c "." then
        match read_digits rest with
        | (EmptyString, _) => (EmptyString, s)
        | (ds, r) => (ds, r)
        end
      else (EmptyString, s)
  | EmptyString => (EmptyString, s)
  end.

(** An exponent: [e] or [E], a sign or none, and at least one digit. *)
Definition read_exponent (s : string) : option Z * string :=
  match s with
  | String e rest =>
      if Ascii.eqb e "e" || Ascii.eqb e "E" then
        let (negative, after) :=
          match rest with
          | String g rest' =>
              if Ascii.eqb g "-" then (true, rest')
              else if Ascii.eqb g "+" then (false, rest')
              else (false, rest)
          | EmptyString => (false, rest)
          end in
        match read_digits after with
        | (EmptyString, _) => (None, s)
        | (ds, r) =>
            (Some (if negative then (- digits_value 0 ds)%Z else digits_value 0 ds), r)
        end
      else (None, s)
  | EmptyString => (None, s)
  end.

(** A number with a fraction or an exponent is a [float]; another one is
    an [int], if it has no more digits than the interpreter converts. *)
Definition read_number (s : string) : scan pyval :=
  let (negative, body) :=
    match s with
    | String c rest => if Ascii.eqb c "-" then (true, rest) else (false, s)
    | EmptyString => (false, s)
    end in
  match read_int_part body with
  | None => Failed (expecting_value s)
  | Some (int_digits, r0) =>
      let (fraction, r1) := read_fraction r0 in
      let (exponent, r2) := read_exponent r1 in
      match fraction, exponent with
      | EmptyString, None =>
          if (int_max_str_digits <? String.length int_digits)%nat then
            Failed (Fatal (too_long_for_int (String.length int_digits)))
          else
            let n := digits_value 0 int_digits in
            Scanned (PyInt (if negative then (- n)%Z else n)) r2
      | _, _ =>
          let e := match exponent with Some e => e | None => 0%Z end in
          Scanned
            (PyFloat
               (float_of_decimal negative
                  (digits_value 0 (int_digits ++ fraction))
                  (e - Z.of_nat (String.length fraction))))
            r2
      end
  end.

(** **** Strings *)

Definition hex_value (c : ascii) : option N :=
  let n := code c in
  if (48 <=? n)%nat && (n <=? 57)%nat then Some (N.of_nat (n - 48))
  else if (97 <=? n)%nat && (n <=? 102)%nat then Some (N.of_nat (n - 87))
  else if (65 <=? n)%nat && (n <=? 70)%nat then Some (N.of_nat (n - 55))
  else None.

Definition hex4 (a b c d : ascii) : option N :=
  match hex_value a, hex_value b, hex_value c, hex_value d with
  | Some x, Some y, Some z, Some t => Some (((x * 16 + y) * 16 + z) * 16 + t)%N
  | _, _, _, _ => None
  end.

(** What a JSON string holds: a character as written, or a [\u] escape. *)
Inductive string_item : Type :=
| Plain (c : ascii)
| Escaped (unit : N).

Definition simple_escape (c : ascii) : option ascii :=
  match code c with
  | 34 => Some dquote
  | 92 => Some backslash
  | 47 => Some "/"%char
  | 98 => Some (ascii_of_nat 8)
  | 102 => Some (ascii_of_nat 12)
  | 110 => Some (ascii_of_nat 10)
  | 114 => Some (ascii_of_nat 13)
  | 116 => Some (ascii_of_nat 9)
  | _ => None
  end.

Definition unterminated (opening : string) : failure :=
  Syntax "Unterminated string starting at" opening.

Definition invalid_unicode_escape (more : string) : failure :=
  Syntax "Invalid \uXXXX escape" more.

(** Reads up to the closing quote; [opening] is the text from the opening
    quote on.  A control character is refused, and so is a [\u] escape
    that is not followed by four hexadecimal digits and one character
    more. *)
Fixpoint read_string_items (opening s : string) {struct s}
  : scan (list string_item) :=
  match s with
  | EmptyString => Failed (unterminated opening)
  | String c rest =>
      if Ascii.eqb c dquote then Scanned [] rest
      else if Ascii.eqb c backslash then
        match rest with
        | EmptyString => Failed (unterminated opening)
        | String e rest1 =>
            if Ascii.eqb e "u" then
              match rest1 with
              | String h1 (String h2 (String h3 (String h4 (String _ _ as rest2)))) =>
                  match hex4 h1 h2 h3 h4 with
                  | Some u =>
                      match read_string_items opening rest2 with
                      | Scanned items r => Scanned (Escaped u :: items) r
                      | Failed f => Failed f
                      end
                  | None => Failed (invalid_unicode_escape rest)
                  end
              | _ => Failed (invalid_unicode_escape rest)
              end
            else
              match simple_escape e with
              | Some x =>
                  match read_string_items opening rest1 with
                  | Scanned items r => Scanned (Plain x :: items) r
                  | Failed f => Failed f
                  end
              | None => Failed (Syntax "Invalid \escape" s)
              end
        end
      else if (code c <? 32)%nat then
        Failed (Syntax "Invalid control character at" s)
      else
        match read_string_items opening rest with
        | Scanned items r => Scanned (Plain c :: items) r
        | Failed f => Failed f
        end
  end.

Definition is_high_surrogate (u : N) : bool := (55296 <=? u)%N && (u <=? 56319)%N.
Definition is_low_surrogate (u : N) : bool := (56320 <=? u)%N && (u <=? 57343)%N.

(** The text of the items: a high surrogate escape followed at once by a
    low surrogate escape is one code point. *)
Fixpoint text_of_items (items : list string_item) : string :=
  match items with
  | [] => EmptyString
  | Plain c :: rest => String c (text_of_items rest)
  | Escaped hi :: rest =>
      match rest with
      | Escaped lo :: rest' =>
          if is_high_surrogate hi && is_low_surrogate lo then
            utf8_encode (65536 + (hi - 55296) * 1024 + (lo - 56320))
            ++ text_of_items rest'
          else utf8_encode hi ++ text_of_items rest
      | _ => utf8_encode hi ++ text_of_items rest
      end
  end.

(** A string: [opening] is the text from the opening quote on, [rest]
    the text after that quote. *)
Definition read_string (opening rest : string) : scan string :=
  match read_string_items opening rest with
  | Scanned items r => Scanned (text_of_items items) r
  | Failed f => Failed f
  end.

(** **** Documents *)

(** A later value for a key replaces the earlier one, in its place. *)
Fixpoint dict_set (k : string) (v : pyval) (d : list (string * pyval))
  : list (string * pyval) :=
  match d with
  | [] => [(k, v)]
  | (k', v') :: rest =>
      if String.eqb k k' then (k, v) :: rest else (k', v') :: dict_set k v rest
  end.

Section Containers.

Variable read_value : string -> scan pyval.

(** The elements of an array, from the first one.  [fuel] bounds their
    number: each takes a character at least. *)
Fixpoint read_elements (fuel : nat) (s : string) (acc : list pyval)
  : scan (list pyval) :=
  match fuel with
  | O => Failed (expecting_value s)
  | S fuel' =>
      match read_value s with
      | Failed f => Failed f
      | Scanned v r =>
          match skip_ws r with
          | String c r' =>
              if Ascii.eqb c "]" then Scanned (rev (v :: acc)) r'
              else if Ascii.eqb c "," then
                read_elements fuel' (skip_ws r') (v :: acc)
              else Failed (Syntax "Expecting ',' delimiter" (skip_ws r))
          | EmptyString => Failed (Syntax "Expecting ',' delimiter" EmptyString)
          end
      end
  end.

(** The members of an object, from the first key. *)
Fixpoint read_members (fuel : nat) (s : string) (acc : list (string * pyval))
  : scan (list (string * pyval)) :=
  match fuel with
  | O => Failed (expecting_value s)
  | S fuel' =>
      match
        match s with
        | String q rest =>
            if Ascii.eqb q dquote then read_string s rest
            else Failed (Syntax "Expecting property name enclosed in double quotes" s)
        | EmptyString =>
            Failed (Syntax "Expecting property name enclosed in double quotes" s)
        end
      with
      | Failed f => Failed f
      | Scanned k r1 =>
          match skip_ws r1 with
          | String c r2 =>
              if Ascii.eqb c ":" then
                match read_value (skip_ws r2) with
                | Failed f => Failed f
                | Scanned v r3 =>
                    match skip_ws r3 with
                    | String d r4 =>
                        if Ascii.eqb d "}" then Scanned (dict_set k v acc) r4
                        else if Ascii.eqb d "," then
                          read_members fuel' (skip_ws r4) (dict_set k v acc)
                        else Failed (Syntax "Expecting ',' delimiter" (skip_ws r3))
                    | EmptyString =>
                        Failed (Syntax "Expecting ',' delimiter" EmptyString)
                    end
                end
              else Failed (Syntax "Expecting ':' delimiter" (skip_ws r1))
          | EmptyString => Failed (Syntax "Expecting ':' delimiter" EmptyString)
          end
      end
  end.

End Containers.

(** The constants and the numbers. *)
Definition read_literal (s : string) : scan pyval :=
  match strip_prefix "null" s with
  | Some r => Scanned PyNone r
  | None =>
  match strip_prefix "true" s with
  | Some r => Scanned (PyBool true) r
  | None =>
  match strip_prefix "false" s with
  | Some r => Scanned (PyBool false) r
  | None =>
  match strip_prefix "NaN" s with
  | Some r => Scanned (PyFloat NaN) r
  | None =>
  match strip_prefix "Infinity" s with
  | Some r => Scanned (PyFloat (Infinite false)) r
  | None =>
  match strip_prefix "-Infinity" s with
  | Some r => Scanned (PyFloat (Infinite true)) r
  | None => read_number s
  end end end end end end.

(** A value, with [budget] levels of containers left. *)
Fixpoint read_value (budget : nat) (s : string) : scan pyval :=
  match s with
  | EmptyString => Failed (expecting_value s)
  | String c rest =>
      if Ascii.eqb c dquote then
        match read_string s rest with
        | Scanned text r => Scanned (PyStr text) r
        | Failed f => Failed f
        end
      else if Ascii.eqb c "[" then
        match budget with
        | O =>
            Failed (Fatal (recursion_error
                             "while decoding a JSON array from a unicode string"))
        | S budget' =>
            match strip_prefix "]" (skip_ws rest) with
            | Some r => Scanned (PyList []) r
            | None =>
                match read_elements (read_value budget')
                        (S (String.length rest)) (skip_ws rest) [] with
                | Scanned items r => Scanned (PyList items) r
                | Failed f => Failed f
                end
            end
        end
      else if Ascii.eqb c "{" then
        match budget with
        | O =>
            Failed (Fatal (recursion_error
                             "while decoding a JSON object from a unicode string"))
        | S budget' =>
            match strip_prefix "}" (skip_ws rest) with
            | Some r => Scanned (PyDict []) r
            | None =>
                match read_members (read_value budget')
                        (S (String.length rest)) (skip_ws rest) [] with
                | Scanned entries r => Scanned (PyDict entries) r
                | Failed f => Failed f
                end
            end
        end
      else read_literal s
  end.

(** The line and the column after a text, counted from those at its
    start. *)
Fixpoint line_column (s : string) (line column : nat) : nat * nat :=
  match s with
  | EmptyString => (line, column)
  | String c rest =>
      if Ascii.eqb c newline then line_column rest (S line) 1
      else if is_continuation c then line_column rest line column
      else line_column rest line (S column)
  end.

(** The [JSONDecodeError] for a document refused where [more] was left
    of it. *)
Definition decode_error (message doc more : string) : exn :=
  let read := String.substring 0 (String.length doc - String.length more) doc in
  let (line, column) := line_column read 1 1 in
  Exn JSONDecodeError
    (message ++ ": line " ++ decimal_of_nat line
     ++ " column " ++ decimal_of_nat column
     ++ " (char " ++ decimal_of_nat (text_length read) ++ ")").

Definition byte_order_mark : string := utf8_encode 65279.

(** [json.loads(s)] *)
Definition loads (s : string) : result pyval :=
  match strip_prefix byte_order_mark s with
  | Some _ =>
      Raise (decode_error "Unexpected UTF-8 BOM (decode using utf-8-sig)" s s)
  | None =>
      match read_value recursion_budget (skip_ws s) with
      | Scanned v r =>
          match skip_ws r with
          | EmptyString => Ret v
          | String _ _ as more => Raise (decode_error "Extra data" s more)
          end
      | Failed (Syntax message more) => Raise (decode_error message s more)
      | Failed (Fatal e) => Raise e
      end
  end.

(** *** Writing JSON *)

Definition json_escape_char (c : ascii) : string :=
  match code c with
  | 34 => String backslash (String dquote EmptyString)
  | 92 => String backslash (String backslash EmptyString)
  | 8 => String backslash "b"
  | 12 => String backslash "f"
  | 10 => String backslash "n"
  | 13 => String backslash "r"
  | 9 => String backslash "t"
  | n => if (n <? 32)%nat then String backslash ("u" ++ hex 4 (byte_of c))
         else String c EmptyString
  end.

Fixpoint json_escape (s : string) : string :=
  match s with
  | EmptyString => EmptyString
  | String c rest => json_escape_char c ++ json_escape rest
  end.

Definition json_quote (s : string) : string :=
  String dquote (json_escape s ++ String dquote EmptyString).

Definition json_float (x : float64) : string :=
  match x with
  | NaN => "NaN"
  | Infinite false => "Infinity"
  | Infinite true => "-Infinity"
  | Finite _ _ _ => float_repr x
  end.

Definition not_serializable (v : pyval) : exn :=
  Exn TypeError
    ("Object of type " ++ py_type_name v ++ " is not JSON serializable").

(** [json.dumps(v, ensure_ascii=False)], with [budget] levels of
    containers left. *)
Fixpoint dumps_within (budget : nat) (v : pyval) : result string :=
  match v with
  | PyNone => Ret "null"
  | PyBool true => Ret "true"
  | PyBool false => Ret "false"
  | PyInt n => int_repr n
  | PyFloat x => Ret (json_float x)
  | PyStr s => Ret (json_quote s)
  | PyBytes _ => Raise (not_serializable v)
  | PyList items =>
      match budget with
      | O => Raise (recursion_error "while encoding a JSON object")
      | S budget' =>
          let? parts := collect (map (dumps_within budget') items) in
          Ret ("[" ++ String.concat ", " parts ++ "]")
      end
  | PyDict entries =>
      match budget with
      | O => Raise (recursion_error "while encoding a JSON object")
      | S budget' =>
          let? parts :=
            collect
              (map (fun kv =>
                      let? a := dumps_within budget' (snd kv) in
                      Ret (json_quote (fst kv) ++ ": " ++ a))
                   entries) in
          Ret ("{" ++ String.concat ", " parts ++ "}")
      end
  end.

Definition dumps : pyval -> result string := dumps_within recursion_budget.

Fixpoint spaces (n : nat) : string :=
  match n with
  | O => EmptyString
  | S m => String " " (spaces m)
  end.

(** [json.dumps(v, indent=2, ensure_ascii=False)], at a nesting depth *)
Fixpoint dumps_indent_within (budget depth : nat) (v : pyval) : result string :=
  let open := String newline (spaces (2 * S depth)) in
  let close := String newline (spaces (2 * depth)) in
  match v with
  | PyList [] => Ret "[]"
  | PyDict [] => Ret "{}"
  | PyList items =>
      match budget with
      | O => Raise (recursion_error "while calling a Python object")
      | S budget' =>
          let? parts :=
            collect (map (dumps_indent_within budget' (S depth)) items) in
          Ret ("[" ++ open ++ String.concat ("," ++ open) parts ++ close ++ "]")
      end
  | PyDict entries =>
      match budget with
      | O => Raise (recursion_error "while calling a Python object")
      | S budget' =>
          let? parts :=
            collect
              (map (fun kv =>
                      let? a := dumps_indent_within budget' (S depth) (snd kv) in
                      Ret (json_quote (fst kv) ++ ": " ++ a))
                   entries) in
          Ret ("{" ++ open ++ String.concat ("," ++ open) parts ++ close ++ "}")
      end
  | _ => dumps_within budget v
  end.

Definition dumps_indent : pyval -> result string :=
  dumps_indent_within recursion_budget 0.

(** *** [str] and [repr] *)

Definition single_quote : ascii := "'"%char.

(** The quote of a [repr]: double when the text holds a single quote and
    no double one. *)
Definition repr_quote (quotes : list N) : N :=
  if existsb (N.eqb 39) quotes && negb (existsb (N.eqb 34) quotes)
  then 34%N else 39%N.

(** One code point inside the [repr] of a text. *)
Definition repr_code_point (quote : N) (cp : N) : string :=
  let escaped x := String backslash x in
  if (cp =? quote)%N || (cp =? 92)%N then escaped (String (chr cp) EmptyString)
  else if (cp =? 9)%N then escaped "t"
  else if (cp =? 10)%N then escaped "n"
  else if (cp =? 13)%N then escaped "r"
  else if (cp <? 32)%N || (cp =? 127)%N then escaped ("x" ++ hex 2 cp)
  else if (cp <? 127)%N then String (chr cp) EmptyString
  else if is_printable cp then utf8_encode cp
  else if (cp <? 256)%N then escaped ("x" ++ hex 2 cp)
  else if (cp <? 65536)%N then escaped ("u" ++ hex 4 cp)
  else escaped ("U" ++ hex 8 cp).

(** [repr(s)] of a text *)
Definition text_repr (s : string) : string :=
  let cps := code_points s in
  let quote := repr_quote cps in
  String (chr quote)
    (String.concat EmptyString (map (repr_code_point quote) cps)
     ++ String (chr quote) EmptyString).

(** One byte inside the [repr] of [bytes]. *)
Definition repr_byte (quote : N) (b : N) : string :=
  let escaped x := String backslash x in
  if (b =? quote)%N || (b =? 92)%N then escaped (String (chr b) EmptyString)
  else if (b =? 9)%N then escaped "t"
  else if (b =? 10)%N then escaped "n"
  else if (b =? 13)%N then escaped "r"
  else if (b <? 32)%N || (127 <=? b)%N then escaped ("x" ++ hex 2 b)
  else String (chr b) EmptyString.

(** [repr(b)] of [bytes] *)
Definition bytes_repr (b : list byte) : string :=
  let bs := map Byte.to_N b in
  let quote := repr_quote bs in
  "b" ++ String (chr quote)
           (String.concat EmptyString (map (repr_byte quote) bs)
            ++ String (chr quote) EmptyString).

(** [repr(v)], with [budget] levels of containers left. *)
Fixpoint repr_within (budget : nat) (v : pyval) : result string :=
  match v with
  | PyNone => Ret "None"
  | PyBool true => Ret "True"
  | PyBool false => Ret "False"
  | PyInt n => int_repr n
  | PyFloat x => Ret (float_repr x)
  | PyStr s => Ret (text_repr s)
  | PyBytes b => Ret (bytes_repr b)
  | PyList items =>
      match budget with
      | O => Raise (recursion_error "while getting the repr of an object")
      | S budget' =>
          let? parts := collect (map (repr_within budget') items) in
          Ret ("[" ++ String.concat ", " parts ++ "]")
      end
  | PyDict entries =>
      match budget with
      | O => Raise (recursion_error "while getting the repr of an object")
      | S budget' =>
          let? parts :=
            collect
              (map (fun kv =>
                      let? a := repr_within budget' (snd kv) in
                      Ret (text_repr (fst kv) ++ ": " ++ a))
                   entries) in
          Ret ("{" ++ String.concat ", " parts ++ "}")
      end
  end.

Definition repr : pyval -> result string := repr_within recursion_budget.

(** [str(v)] *)
Definition str (v : pyval) : result string :=
  match v with
  | PyStr s => Ret s
  | _ => repr v
  end.

Definition runtime : PyRuntime := {|
  json_loads := loads;
  json_dumps := dumps;
  json_dumps_indent := dumps_indent;
  py_str := str;
  py_str_text := fun _ => eq_refl
|}.

(** An environment with fixed answers: the backend replies with
    [response], whatever it is asked. *)
Definition environment (response : result agent_response) : Environment := {|
  uuid4 := fun n => "session-" ++ decimal (Z.of_nat n);
  datetime_now_isoformat := "2025-01-01T00:00:00";
  getenv := fun name =>
    if String.eqb name "AGENT_ID" then Some "AGENT"
    else if String.eqb name "AGENT_ALIAS_ID" then Some "ALIAS"
    else None;
  invoke_agent := fun _ _ _ _ _ => response
|}.

End Reference.

(** * The vocabulary of the properties *)

(** ** Calls *)

(** [record_call_ok generations n c]: the call [c] is one that processing
    a record makes when the client's next handle is [n] or later: it
    opens, ends or closes only what it has opened itself (a handle from
    [n] on), and the events it emits are the two of the orchestration
    trace.  Generation calls are among them when [generations] is
    set. *)
Definition record_call_ok (generations : bool) (n : handle) (c : call) : Prop :=
  match c with
  | OpenGeneration _ h _ _ _ _ _ => generations = true /\ n <= h
  | GenerationEnd h _ _ => generations = true /\ n <= h
  | OpenSpan _ h _ _ _ => n <= h
  | SpanEnd h _ => n <= h
  | SpanEvent _ name _ _ => name = "rationale" \/ name = "final_response"
  | LangfuseTrace _ _ _ _ _ | TraceUpdate _ _ | InvokeAgent _ _ _ _ _ => False
  end.

(** [appends_from generations n m]: run from a world whose next handle
    is [n] or later, [m] mints no identity, prints nothing, never lowers
    the next handle, and only appends calls that are [record_call_ok]. *)
Definition appends_from (generations : bool) (n : handle) {A} (m : M A) : Prop :=
  forall w, n <= next_handle w ->
    next_handle w <= next_handle (snd (m w)) /\
    uuids_minted (snd (m w)) = uuids_minted w /\
    stdout (snd (m w)) = stdout w /\
    exists l, calls (snd (m w)) = calls w ++ l /\
              Forall (record_call_ok generations n) l.

(** The event the loop emits for a record that raised. *)
Definition chunk_error_event (root : handle) (e : exn) : call :=
  SpanEvent root "chunk_processing_error" (PyStr (exn_message e)) None.

Definition is_chunk_error (c : call) : bool :=
  match c with
  | SpanEvent _ name _ _ => String.eqb name "chunk_processing_error"
  | _ => false
  end.

(** The calls of the loop over the stream: those of the records, and the
    error events on the root span. *)
Definition stream_call_ok (root n : handle) (c : call) : Prop :=
  record_call_ok true n c \/ exists e, c = chunk_error_event root e.

Definition opens_generation (h : handle) (c : call) : bool :=
  match c with
  | OpenGeneration _ h' _ _ _ _ _ => Nat.eqb h h'
  | _ => false
  end.

Definition ends_generation (h : handle) (c : call) : bool :=
  match c with
  | GenerationEnd h' _ _ => Nat.eqb h h'
  | _ => false
  end.

(** The Generation [h] has been opened and not closed. *)
Definition generation_is_open (cs : list call) (h : handle) : bool :=
  existsb (opens_generation h) cs && negb (existsb (ends_generation h) cs).

(** The call ends the span [h]. *)
Definition ends_span (h : handle) (c : call) : bool :=
  match c with
  | SpanEnd h' _ => Nat.eqb h h'
  | _ => false
  end.

(** ** Records *)

(** [d.get(k, default)] on the entries of a mapping. *)
Definition lookup_or (k : string) (d : list (string * pyval)) (default : pyval)
  : pyval :=
  match dict_lookup k d with Some v => v | None => default end.

(** The call that opens the Generation of a [modelInvocationInput]. *)
Definition generation_call (parent h : handle) (input_data : list (string * pyval))
  : call :=
  OpenGeneration parent h "model_invocation" "bedrock-agent"
    (lookup_or "inferenceConfiguration" input_data (PyDict []))
    (lookup_or "text" input_data (PyStr ""))
    (PyDict [("type", lookup_or "type" input_data (PyStr ""));
             ("trace_id", lookup_or "traceId" input_data (PyStr ""))]).

(** The raw response content of a [modelInvocationOutput]. *)
Definition raw_content (output : list (string * pyval)) : pyval :=
  match dict_lookup "rawResponse" output with
  | Some (PyDict raw) => lookup_or "content" raw (PyStr "")
  | _ => PyStr ""
  end.

(** The usage of a [modelInvocationOutput]: the token counts, each 0 when
    missing, when the usage metadata is present, and empty otherwise. *)
Definition usage_details (output : list (string * pyval)) : pyval :=
  match dict_lookup "metadata" output with
  | Some (PyDict metadata) =>
      match dict_lookup "usage" metadata with
      | Some (PyDict usage) =>
          PyDict [("input", lookup_or "inputTokens" usage (PyInt 0));
                  ("output", lookup_or "outputTokens" usage (PyInt 0));
                  ("unit", PyStr "TOKENS")]
      | _ => PyDict []
      end
  | _ => PyDict []
  end.

(** A [modelInvocationOutput] whose parts, where present, are mappings:
    [rawResponse], [metadata] and the [usage] inside it. *)
Definition output_well_formed (output : list (string * pyval)) : bool :=
  match dict_lookup "rawResponse" output with
  | Some v => is_dict v
  | None => true
  end
  && match dict_lookup "metadata" output with
     | Some (PyDict metadata) =>
         match dict_lookup "usage" metadata with
         | Some v => is_dict v
         | None => true
         end
     | Some _ => false
     | None => true
     end.

(** The orchestration trace of a record, when the path
    event, trace, trace, orchestrationTrace leads to one. *)
Definition orchestration_path (chunk : pyval) : option pyval :=
  match chunk with
  | PyDict c =>
      match dict_lookup "trace" c with
      | Some (PyDict t) =>
          match dict_lookup "trace" t with
          | Some (PyDict inner) => dict_lookup "orchestrationTrace" inner
          | _ => None
          end
      | _ => None
      end
  | _ => None
  end.

(** Every level of the envelope that is present is a mapping: the
    record, its [trace] entry, and that entry's [trace] entry. *)
Definition envelope_of_mappings (chunk : pyval) : bool :=
  match chunk with
  | PyDict c =>
      match dict_lookup "trace" c with
      | Some (PyDict t) =>
          match dict_lookup "trace" t with
          | Some v => is_dict v
          | None => true
          end
      | Some _ => false
      | None => true
      end
  | _ => false
  end.

(** ** Sessions *)

(** The two results of [trace_agent_interaction]. *)
Definition succeeded (trace_id : string) : pyval :=
  PyDict [("status", PyStr "success"); ("trace_id", PyStr trace_id)].

Definition failed (e : exn) : pyval :=
  PyDict [("status", PyStr "error"); ("message", PyStr (exn_message e))].

(** The session's last calls, on the root span and the Trace. *)
Definition closing_calls (w : world) (failure : option exn) : list call :=
  match failure with
  | None => [SpanEnd (S (next_handle w)) None]
  | Some e =>
      [SpanEnd (S (next_handle w)) (Some (exn_message e));
       TraceUpdate (next_handle w) (PyDict [("error", PyStr (exn_message e))])]
  end.

Section Vocabulary.

Context {runtime : PyRuntime} {environment : Environment}.

(** [_process_orchestration_trace] is the model-invocation block followed
    by the rationale and observation blocks; only the first one makes
    Generation calls. *)
Definition model_invocation_block (parent_span : handle)
    (orchestration_trace : pyval) : M unit :=
  do has_input <- lift (py_contains "modelInvocationInput" orchestration_trace);
  if has_input : bool then
    do input_data <- lift (py_getitem orchestration_trace "modelInvocationInput");
    do model_parameters <-
      lift (py_get input_data "inferenceConfiguration" (PyDict []));
    do text <- lift (py_get input_data "text" (PyStr ""));
    do type <- lift (py_get input_data "type" (PyStr ""));
    do trace_id <- lift (py_get input_data "traceId" (PyStr ""));
    do generation <-
      client_generation parent_span "model_invocation" "bedrock-agent"
        model_parameters text
        (PyDict [("type", type); ("trace_id", trace_id)]);
    do has_output <-
      lift (py_contains "modelInvocationOutput" orchestration_trace);
    if has_output : bool then
      do output <- lift (py_getitem orchestration_trace "modelInvocationOutput");
      do raw <- lift (py_get output "rawResponse" (PyDict []));
      do content <- lift (py_get raw "content" (PyStr ""));
      do raw_response <- lift (_safe_json_loads content);
      do usage <- lift (usage_of output);
      do dumped <- lift (json_dumps raw_response);
      generation_end generation (PyStr dumped) usage
    else ret tt
  else ret tt.

Definition rationale_observation_block (parent_span : handle)
    (orchestration_trace : pyval) : M unit :=
  do has_rationale <- lift (py_contains "rationale" orchestration_trace);
  do _ <-
    (if has_rationale : bool then
       do rationale <- lift (py_getitem orchestration_trace "rationale");
       do text <- lift (py_get rationale "text" (PyStr ""));
       do rationale' <- lift (py_getitem orchestration_trace "rationale");
       do trace_id <- lift (py_get rationale' "traceId" (PyStr ""));
       client_event parent_span "rationale" text
         (Some (PyDict [("trace_id", trace_id)]))
     else ret tt);
  do has_observation <- lift (py_contains "observation" orchestration_trace);
  if has_observation : bool then
    do observation <- lift (py_getitem orchestration_trace "observation");
    _process_observation parent_span observation
  else ret tt.

(** What processing a record returns or raises. *)
Definition chunk_outcome (chunk : pyval) : result unit :=
  fst (_process_trace_chunk chunk 0 initial_world).

(** The world once the records [events] have been processed in turn. *)
Fixpoint after_records (events : list pyval) (span : handle) (w : world) : world :=
  match events with
  | [] => w
  | ev :: rest => after_records rest span (snd (_process_trace_chunk ev span w))
  end.

(** The identity the next call of [trace_agent_interaction] mints. *)
Definition session_id_of (w : world) : string := uuid4 (uuids_minted w).

(** The metadata the Trace is created with. *)
Definition trace_metadata : pyval :=
  PyDict [("timestamp", PyStr datetime_now_isoformat);
          ("agent_id", py_of_env (getenv "AGENT_ID"));
          ("agent_alias_id", py_of_env (getenv "AGENT_ALIAS_ID"))].

(** The session's first calls: the Trace, the root span, the backend. *)
Definition opening_calls (input_text : string) (w : world) : list call :=
  [LangfuseTrace (next_handle w) (session_id_of w) "Bedrock Agent Invocation"
     (PyStr input_text) trace_metadata;
   OpenSpan (next_handle w) (S (next_handle w)) "orchestration"
     (PyStr input_text) None;
   InvokeAgent (getenv "AGENT_ID") (getenv "AGENT_ALIAS_ID") (session_id_of w)
     true input_text].

(** What the backend answers to the session's call. *)
Definition backend_reply (input_text : string) (w : world) : result agent_response :=
  invoke_agent (getenv "AGENT_ID") (getenv "AGENT_ALIAS_ID") (session_id_of w)
    true input_text.

(** The fatal error of a session: the backend call raises, or reading
    its stream does. *)
Definition backend_failure (input_text : string) (w : world) : option exn :=
  match backend_reply input_text w with
  | Raise e => Some e
  | Ret response => stream_failure (completion response)
  end.

(** The world in which the loop over the stream starts. *)
Definition loop_start (input_text : string) (w : world) (out : list string) : world :=
  World (S (S (next_handle w))) (S (uuids_minted w)) out
    (calls w ++ opening_calls input_text w).

End Vocabulary.

(** ** Further vocabulary *)

(** The world with other lines printed. *)
Definition set_stdout (out : list string) (w : world) : world :=
  World (next_handle w) (uuids_minted w) out (calls w).

(** [m] neither prints nor looks at what was printed. *)
Definition stdout_blind {A} (m : M A) : Prop :=
  forall w out, m (set_stdout out w) = (fst (m w), set_stdout out (snd (m w))).

(** Two worlds that differ at most in what was printed. *)
Definition same_trace (w w' : world) : Prop :=
  next_handle w = next_handle w'
  /\ uuids_minted w = uuids_minted w'
  /\ calls w = calls w'.

(** Every span opened with [span] in [l] is ended, without error, by the
    very next call.  Generations, which [generation] opens, are not
    looked at. *)
Fixpoint spans_closed_at_once (l : list call) : bool :=
  match l with
  | [] => true
  | OpenSpan _ h _ _ _ :: rest =>
      match rest with
      | SpanEnd h' None :: rest' => Nat.eqb h h' && spans_closed_at_once rest'
      | _ => false
      end
  | _ :: rest => spans_closed_at_once rest
  end.

(** [m] appends calls that satisfy [P], whether it returns or raises. *)
Definition emits (P : list call -> Prop) {A} (m : M A) : Prop :=
  forall w, exists l, calls (snd (m w)) = calls w ++ l /\ P l.

Definition is_trace_creation (c : call) : bool :=
  match c with LangfuseTrace _ _ _ _ _ => true | _ => false end.

Definition is_backend_call (c : call) : bool :=
  match c with InvokeAgent _ _ _ _ _ => true | _ => false end.

Definition is_trace_update (c : call) : bool :=
  match c with TraceUpdate _ _ => true | _ => false end.

(** The stream that yields the records of a list and then raises. *)
Fixpoint stream_then_raise (events : list pyval) (e : exn) : event_stream :=
  match events with
  | [] => StreamRaise e
  | ev :: rest => StreamYield ev (stream_then_raise rest e)
  end.

Section FurtherVocabulary.

Context {runtime : PyRuntime}.

(** The exceptions of the records that raise, in the order of the
    records. *)
Fixpoint record_errors (events : list pyval) : list exn :=
  match events with
  | [] => []
  | ev :: rest =>
      match chunk_outcome ev with
      | Ret _ => record_errors rest
      | Raise e => e :: record_errors rest
      end
  end.

End FurtherVocabulary.

(** ** Concrete records and backends *)

Module Runs.

Import Reference.

(** A raw record that carries an orchestration trace. *)
Definition envelope (orchestration_trace : pyval) : pyval :=
  PyDict [("trace",
           PyDict [("trace",
                    PyDict [("orchestrationTrace", orchestration_trace)])])].

Definition sample_input_entries : list (string * pyval) :=
  [("text", PyStr "hello"); ("traceId", PyStr "t-1")].

Definition sample_usage_entries : list (string * pyval) :=
  [("inputTokens", PyInt 10); ("outputTokens", PyInt 5)].

Definition sample_metadata_entries : list (string * pyval) :=
  [("usage", PyDict sample_usage_entries)].

Definition sample_output_entries : list (string * pyval) :=
  [("rawResponse", PyDict [("content", PyStr "hi")]);
   ("metadata", PyDict sample_metadata_entries)].

(** The orchestration trace with both keys, in its two orders. *)
Definition input_then_output : list (string * pyval) :=
  [("modelInvocationInput", PyDict sample_input_entries);
   ("modelInvocationOutput", PyDict sample_output_entries)].

Definition output_then_input : list (string * pyval) :=
  [("modelInvocationOutput", PyDict sample_output_entries);
   ("modelInvocationInput", PyDict sample_input_entries)].

(** The orchestration trace with both keys and the usage metadata,
    whose [rawResponse] is [None]. *)
Definition null_raw_response : list (string * pyval) :=
  [("modelInvocationInput", PyDict sample_input_entries);
   ("modelInvocationOutput",
    PyDict [("rawResponse", PyNone);
            ("metadata", PyDict sample_metadata_entries)])].

(** A record with a [modelInvocationInput] alone, one with a
    [modelInvocationOutput] alone, and one with both, the output first. *)
Definition input_record : pyval :=
  envelope (PyDict [("modelInvocationInput", PyDict sample_input_entries)]).

Definition output_record : pyval :=
  envelope (PyDict [("modelInvocationOutput", PyDict sample_output_entries)]).

Definition input_output_record : pyval := envelope (PyDict output_then_input).

(** A record whose [trace] entry is [None]. *)
Definition null_trace_record : pyval := PyDict [("trace", PyNone)].

(** A record of response text, with no trace in it. *)
Definition text_chunk_record : pyval :=
  PyDict [("chunk", PyDict [("bytes", PyBytes [x68; x69])])].

(** An observation with the output of a collaborator that has no name. *)
Definition nameless_collaborator : list (string * pyval) :=
  [("traceId", PyStr "t-2");
   ("agentCollaboratorInvocationOutput",
    PyDict [("agentCollaboratorAliasArn", PyStr "arn:alias")])].

(** The Generation that [sample_input_entries] opens. *)
Definition sample_generation (parent h : handle) : call :=
  OpenGeneration parent h "model_invocation" "bedrock-agent" (PyDict [])
    (PyStr "hello") (PyDict [("type", PyStr ""); ("trace_id", PyStr "t-1")]).

(** A world in which the trace (handle 0) and the root span (handle 1)
    exist. *)
Definition started : world := World 2 1 [] [].

(** The world after [input_record]: the Generation 2 is open. *)
Definition generation_left_open : world := World 3 1 [] [sample_generation 1 2].

(** A backend that refuses the call. *)
Definition access_denied : exn := Exn (ExternalError "ClientError") "access denied".

Definition refusing_backend : Environment := environment (Raise access_denied).

(** A backend whose stream ends at once. *)
Definition silent_backend : Environment :=
  environment (Ret {| completion := StreamEnd |}).

(** A stream of three records whose second one raises. *)
Definition second_of_three_fails : Environment :=
  environment
    (Ret {| completion :=
              stream_of [input_output_record; null_trace_record; input_record] |}).

End Runs.

Module MoreRuns.

Import Reference Runs.

(** An observation with a final response and a collaborator's output. *)
Definition full_observation : list (string * pyval) :=
  [("traceId", PyStr "t-3"); ("type", PyStr "FINISH");
   ("finalResponse", PyDict [("text", PyStr "done")]);
   ("agentCollaboratorInvocationOutput",
    PyDict [("agentCollaboratorName", PyStr "helper");
            ("output", PyDict [("text", PyStr "ok")])])].

(** An orchestration trace that carries everything, the observation
    first. *)
Definition full_trace : list (string * pyval) :=
  [("observation", PyDict full_observation);
   ("rationale", PyDict [("text", PyStr "because")]);
   ("modelInvocationOutput", PyDict sample_output_entries);
   ("modelInvocationInput", PyDict sample_input_entries)].

(** What [json.dumps] writes for the mappings content: [s] and
    text: [s]. *)
Definition dumped_content (s : string) : string :=
  "{" ++ json_quote "content" ++ ": " ++ json_quote s ++ "}".

Definition dumped_text (s : string) : string :=
  "{" ++ json_quote "text" ++ ": " ++ json_quote s ++ "}".

(** A record that is a text, not a mapping. *)
Definition text_record : pyval := PyStr "junk".

(** A stream of four records, the first and the last of which raise. *)
Definition first_and_last_fail : Environment :=
  environment
    (Ret {| completion :=
              stream_of [null_trace_record; input_output_record;
                         text_chunk_record; text_record] |}).

Definition stream_broke : exn := Exn (ExternalError "EventStreamError") "stream broke".

(** The text of an integer of 4301 digits, one more than [int] reads. *)
Fixpoint ones (n : nat) : string :=
  match n with
  | O => EmptyString
  | S m => String "1" (ones m)
  end.

Definition long_integer : string := ones 4301.

(** What [json.loads] raises on it. *)
Definition too_many_digits : exn :=
  Exn ValueError
    "Exceeds the limit (4300 digits) for integer string conversion: value has 4301 digits; use sys.set_int_max_str_digits() to increase the limit".

(** What [json.loads] raises on text that is no JSON from its first
    character on. *)
Definition expecting_value_at_start : exn :=
  Exn JSONDecodeError "Expecting value: line 1 column 1 (char 0)".

(** An orchestration trace whose raw response content is that integer,
    with a rationale. *)
Definition long_integer_output : list (string * pyval) :=
  [("rawResponse", PyDict [("content", PyStr long_integer)]);
   ("metadata", PyDict sample_metadata_entries)].

Definition long_integer_trace : list (string * pyval) :=
  [("modelInvocationInput", PyDict sample_input_entries);
   ("modelInvocationOutput", PyDict long_integer_output);
   ("rationale", PyDict [("text", PyStr "because")])].

(** A stream that raises after one record. *)
Definition breaks_after_one : Environment :=
  environment
    (Ret {| completion := stream_then_raise [input_record] stream_broke |}).

End MoreRuns.

(** * Properties *)

(** ** Dictionaries *)

Lemma dict_lookup_in (k : string) (d : list (string * pyval)) (v : pyval) :
  dict_lookup k d = Some v -> In (k, v) d.
Proof.
  induction d as [|[k' v'] d IH]; simpl; [discriminate|].
  destruct (String.eqb_spec k k') as [->|].
  - intros [= ->]. now left.
  - intros H. right. now apply IH.
Qed.

Lemma in_dict_lookup (k : string) (d : list (string * pyval)) (v : pyval) :
  NoDup (map fst d) -> In (k, v) d -> dict_lookup k d = Some v.
Proof.
  induction d as [|[k' v'] d IH]; simpl; [tauto|].
  intros Hnd [[= -> ->]|Hin].
  - now rewrite String.eqb_refl.
  - inversion Hnd as [|? ? Hk' Hnd']; subst.
    destruct (String.eqb_spec k k') as [->|]; [|now apply IH].
    exfalso. apply Hk'. now apply (in_map fst) in Hin.
Qed.

(** With distinct keys, a lookup does not see the order of the entries. *)
Lemma dict_lookup_permutation (k : string) (d d' : list (string * pyval)) :
  NoDup (map fst d) -> Permutation d d' -> dict_lookup k d = dict_lookup k d'.
Proof.
  intros Hnd Hp.
  assert (Hnd' : NoDup (map fst d')).
  { eapply Permutation_NoDup; [|exact Hnd]. now apply Permutation_map. }
  destruct (dict_lookup k d) as [v|] eqn:E.
  - symmetry. apply in_dict_lookup; [exact Hnd'|].
    eapply Permutation_in; [exact Hp|]. now apply dict_lookup_in.
  - destruct (dict_lookup k d') as [v'|] eqn:E'; [|reflexivity].
    apply dict_lookup_in in E'.
    apply (Permutation_in _ (Permutation_sym Hp)) in E'.
    apply (in_dict_lookup _ _ _ Hnd) in E'. congruence.
Qed.

(** ** The monad *)

Lemma bind_assoc {A B C} (m : M A) (f : A -> M B) (g : B -> M C) (w : world) :
  bind (bind m f) g w = bind m (fun a => bind (f a) g) w.
Proof.
  unfold bind. destruct (m w) as [[a|e] w']; reflexivity.
Qed.

(** ** What processing a record may ask of the Langfuse client *)

Section AppendsRules.

Variable generations : bool.
Variable n : handle.

Lemma appends_ret {A} (a : A) : appends_from generations n (ret a).
Proof.
  intros w _. simpl. repeat split; auto. exists []. now rewrite app_nil_r.
Qed.

Lemma appends_lift {A} (r : result A) : appends_from generations n (lift r).
Proof.
  intros w _. simpl. repeat split; auto. exists []. now rewrite app_nil_r.
Qed.

Lemma appends_bind {A B} (m : M A) (k : A -> M B) :
  appends_from generations n m ->
  (forall a, appends_from generations n (k a)) ->
  appends_from generations n (bind m k).
Proof.
  intros Hm Hk w Hw. unfold bind.
  destruct (Hm w Hw) as (Hn & Hu & Ho & l & Hl & HP).
  destruct (m w) as [[a|e] w1]; simpl in *.
  - assert (Hw1 : n <= next_handle w1) by lia.
    destruct (Hk a w1 Hw1) as (Hn' & Hu' & Ho' & l' & Hl' & HP').
    repeat split; [lia|congruence|congruence|].
    exists (l ++ l'). split.
    + rewrite Hl', Hl. now rewrite app_assoc.
    + now apply Forall_app.
  - repeat split; auto. now exists l.
Qed.

Lemma appends_if {A} (b : bool) (m1 m2 : M A) :
  appends_from generations n m1 -> appends_from generations n m2 ->
  appends_from generations n (if b then m1 else m2).
Proof. now destruct b. Qed.

Lemma appends_record_call (c : call) :
  record_call_ok generations n c -> appends_from generations n (record_call c).
Proof.
  intros Hc w _. simpl. repeat split; auto.
  exists [c]. split; [reflexivity|]. now constructor.
Qed.

(** A client call that opens something hands the body a handle of
    its own. *)
Lemma appends_bind_span {B} parent name input metadata (k : handle -> M B) :
  (forall h, n <= h -> appends_from generations n (k h)) ->
  appends_from generations n (bind (client_span parent name input metadata) k).
Proof.
  intros Hk w Hw. unfold bind, client_span, fresh_handle, record_call, ret. simpl.
  set (w1 := World _ _ _ _).
  assert (Hw1 : n <= next_handle w1) by (simpl; lia).
  destruct (Hk (next_handle w) Hw w1 Hw1) as (Hn' & Hu' & Ho' & l' & Hl' & HP').
  simpl in *. repeat split; [lia|auto|auto|].
  exists (OpenSpan parent (next_handle w) name input metadata :: l'). split.
  - rewrite Hl'. now rewrite <- app_assoc.
  - constructor; [exact Hw|exact HP'].
Qed.

End AppendsRules.

Lemma appends_bind_generation {B} n parent name model parameters input metadata
    (k : handle -> M B) :
  (forall h, n <= h -> appends_from true n (k h)) ->
  appends_from true n
    (bind (client_generation parent name model parameters input metadata) k).
Proof.
  intros Hk w Hw.
  unfold bind, client_generation, fresh_handle, record_call, ret. simpl.
  set (w1 := World _ _ _ _).
  assert (Hw1 : n <= next_handle w1) by (simpl; lia).
  destruct (Hk (next_handle w) Hw w1 Hw1) as (Hn' & Hu' & Ho' & l' & Hl' & HP').
  simpl in *. repeat split; [lia|auto|auto|].
  exists (OpenGeneration parent (next_handle w) name model parameters input metadata
            :: l'). split.
  - rewrite Hl'. now rewrite <- app_assoc.
  - constructor; [split; [reflexivity|exact Hw]|exact HP'].
Qed.

Lemma appends_weaken n {A} (m : M A) :
  appends_from false n m -> appends_from true n m.
Proof.
  intros H w Hw. destruct (H w Hw) as (Hn & Hu & Ho & l & Hl & HP).
  repeat split; auto. exists l. split; [exact Hl|].
  eapply Forall_impl; [|exact HP].
  intros [] Hc; simpl in *; try tauto; destruct Hc; discriminate.
Qed.

(** Walks a chain of binds with the rules above. *)
Ltac appends_step :=
  first
    [ apply appends_ret
    | apply appends_lift
    | apply appends_bind_span; intros ? ?
    | apply appends_bind_generation; intros ? ?
    | apply appends_bind; [|intros ?]
    | apply appends_if
    | apply appends_record_call; simpl; auto ].

Section TracerProperties.

Context {runtime : PyRuntime} {environment : Environment}.
Variable debug : bool.

#[local] Arguments _safe_json_loads : simpl never.
#[local] Arguments usage_of : simpl never.

Lemma _process_observation_appends n parent observation :
  appends_from false n (_process_observation parent observation).
Proof.
  unfold _process_observation, client_event, span_end.
  repeat appends_step.
Qed.

Lemma _process_orchestration_trace_appends n parent orchestration_trace :
  appends_from true n (_process_orchestration_trace parent orchestration_trace).
Proof.
  unfold _process_orchestration_trace, client_event, generation_end.
  repeat appends_step.
Qed.

Lemma _process_trace_chunk_appends n chunk parent :
  appends_from true n (_process_trace_chunk chunk parent).
Proof.
  unfold _process_trace_chunk.
  repeat appends_step.
Qed.

(** ** The payload normalizer *)

Lemma exn_class_eqb_eq (a b : exn_class) : exn_class_eqb a b = true <-> a = b.
Proof.
  destruct a, b; simpl; split; try discriminate; try reflexivity.
  - intros H. apply String.eqb_eq in H. now subst.
  - intros [= ->]. apply String.eqb_refl.
Qed.

Lemma exn_class_eqb_neq (a b : exn_class) : a <> b -> exn_class_eqb a b = false.
Proof.
  intros H. destruct (exn_class_eqb a b) eqn:E; [|reflexivity].
  apply exn_class_eqb_eq in E. contradiction.
Qed.

Lemma exn_class_eqb_refl (a : exn_class) : exn_class_eqb a a = true.
Proof. now apply exn_class_eqb_eq. Qed.




(** ** The two halves of [_process_orchestration_trace] *)

Lemma _process_orchestration_trace_blocks parent orchestration_trace w :
  _process_orchestration_trace parent orchestration_trace w =
  bind (model_invocation_block parent orchestration_trace)
       (fun _ => rationale_observation_block parent orchestration_trace) w.
Proof.
  unfold _process_orchestration_trace, model_invocation_block,
    rationale_observation_block.
  now rewrite bind_assoc.
Qed.

Lemma rationale_observation_block_appends n parent orchestration_trace :
  appends_from false n (rationale_observation_block parent orchestration_trace).
Proof.
  unfold rationale_observation_block, client_event.
  repeat appends_step.
Qed.

(** *** What a record's Generation is opened and closed with *)

Lemma usage_of_well_formed (output : list (string * pyval)) :
  output_well_formed output = true ->
  usage_of (PyDict output) = Ret (usage_details output).
Proof.
  unfold output_well_formed, usage_of, usage_details. intros H.
  apply andb_prop in H as [_ H].
  simpl. unfold dict_has.
  destruct (dict_lookup "metadata" output) as [[]|]; try discriminate; simpl;
    [|reflexivity].
  unfold dict_has.
  destruct (dict_lookup "usage" entries) as [[]|]; try discriminate; reflexivity.
Qed.

Lemma raw_content_well_formed (output : list (string * pyval)) :
  output_well_formed output = true ->
  (let? raw := py_get (PyDict output) "rawResponse" (PyDict []) in
   py_get raw "content" (PyStr "")) = Ret (raw_content output).
Proof.
  unfold output_well_formed, raw_content. intros H.
  apply andb_prop in H as [H _]. simpl.
  destruct (dict_lookup "rawResponse" output) as [[]|]; try discriminate;
    reflexivity.
Qed.

Lemma model_invocation_block_closes_with
    parent d input_data output raw_response dumped w :
  dict_lookup "modelInvocationInput" d = Some (PyDict input_data) ->
  dict_lookup "modelInvocationOutput" d = Some (PyDict output) ->
  output_well_formed output = true ->
  _safe_json_loads (raw_content output) = Ret raw_response ->
  json_dumps raw_response = Ret dumped ->
  model_invocation_block parent (PyDict d) w =
  (Ret tt,
   World (S (next_handle w)) (uuids_minted w) (stdout w)
     (calls w ++ [generation_call parent (next_handle w) input_data;
                  GenerationEnd (next_handle w) (PyStr dumped)
                    (usage_details output)])).
Proof.
  intros Hin Hout Hwf Hraw Hdump.
  pose proof (raw_content_well_formed _ Hwf) as Hcontent.
  pose proof (usage_of_well_formed _ Hwf) as Husage.
  unfold model_invocation_block, bind, lift, py_contains, py_getitem, dict_has.
  rewrite Hin, Hout. simpl.
  simpl in Hcontent.
  destruct (dict_lookup "rawResponse" output) as [raw|] eqn:Eraw.
  - destruct (py_get raw "content" (PyStr "")) as [content|] eqn:Ec;
      [|discriminate].
    injection Hcontent as ->. rewrite Hraw, Husage, Hdump. simpl.
    unfold generation_end, record_call. simpl.
    now rewrite <- app_assoc.
  - simpl in Hcontent. injection Hcontent as Hc.
    rewrite <- Hc in Hraw.
    simpl. rewrite Hraw, Husage, Hdump. simpl.
    unfold generation_end, record_call. simpl.
    now rewrite <- app_assoc.
Qed.

(** A record with both keys, when normalizing the content or dumping it
    raises: the block has opened its Generation, makes no other call,
    and raises that exception. *)
Lemma model_invocation_block_raises parent d input_data output e w :
  dict_lookup "modelInvocationInput" d = Some (PyDict input_data) ->
  dict_lookup "modelInvocationOutput" d = Some (PyDict output) ->
  output_well_formed output = true ->
  (_safe_json_loads (raw_content output) = Raise e
   \/ exists raw_response,
        _safe_json_loads (raw_content output) = Ret raw_response
        /\ json_dumps raw_response = Raise e) ->
  model_invocation_block parent (PyDict d) w =
  (Raise e,
   World (S (next_handle w)) (uuids_minted w) (stdout w)
     (calls w ++ [generation_call parent (next_handle w) input_data])).
Proof.
  intros Hin Hout Hwf Hfail.
  pose proof (raw_content_well_formed _ Hwf) as Hcontent.
  pose proof (usage_of_well_formed _ Hwf) as Husage.
  unfold model_invocation_block, bind, lift, py_contains, py_getitem, dict_has.
  rewrite Hin, Hout. simpl.
  simpl in Hcontent.
  destruct (dict_lookup "rawResponse" output) as [raw|] eqn:Eraw.
  - destruct (py_get raw "content" (PyStr "")) as [content|] eqn:Ec;
      [|discriminate].
    injection Hcontent as ->.
    destruct Hfail as [Hraw|(raw_response & Hraw & Hdump)]; rewrite Hraw;
      [reflexivity|].
    now rewrite Husage, Hdump.
  - simpl in Hcontent. injection Hcontent as Hc.
    rewrite <- Hc in Hfail. simpl.
    destruct Hfail as [Hraw|(raw_response & Hraw & Hdump)]; rewrite Hraw;
      [reflexivity|].
    now rewrite Husage, Hdump.
Qed.

(** A record without [modelInvocationInput]: the block makes no call. *)
Lemma model_invocation_block_skips parent d w :
  dict_lookup "modelInvocationInput" d = None ->
  model_invocation_block parent (PyDict d) w = (Ret tt, w).
Proof.
  intros Hin.
  unfold model_invocation_block, bind, lift, py_contains, dict_has.
  now rewrite Hin.
Qed.

(** With [modelInvocationInput] in the record, the block opens its
    Generation first, whatever comes after. *)
Lemma model_invocation_block_opens parent d input_data w :
  dict_lookup "modelInvocationInput" d = Some (PyDict input_data) ->
  exists l,
    calls (snd (model_invocation_block parent (PyDict d) w)) =
    calls w ++ generation_call parent (next_handle w) input_data :: l.
Proof.
  intros Hin.
  unfold model_invocation_block, bind, lift, py_contains, py_getitem, dict_has.
  rewrite Hin. simpl.
  destruct (dict_lookup "modelInvocationOutput" d) as [output|]; simpl;
    [|now exists []].
  repeat match goal with
         | |- context [match ?r with Ret _ => _ | Raise _ => _ end] =>
             destruct r; simpl
         end;
    try (now exists []).
  unfold generation_end, record_call. simpl.
  rewrite <- app_assoc. simpl. eauto.
Qed.

(** The calls of a later record close no Generation opened before it. *)
Lemma record_calls_keep_open n cs l h :
  h < n ->
  Forall (record_call_ok true n) l ->
  generation_is_open cs h = true ->
  generation_is_open (cs ++ l) h = true.
Proof.
  intros Hh Hl. unfold generation_is_open.
  rewrite !existsb_app. intros H.
  apply andb_prop in H as [Ho Hc]. rewrite Ho. simpl.
  apply negb_true_iff in Hc. rewrite Hc. simpl.
  apply negb_true_iff.
  induction Hl as [|c l Hc' _ IH]; [reflexivity|].
  simpl. rewrite IH, orb_false_r.
  destruct c; simpl in *; try reflexivity.
  apply Nat.eqb_neq. lia.
Qed.

(** ** Claims about one record *)

(** C1 (amended).  A [modelInvocationOutput] is handled only inside the
    record that also carries the [modelInvocationInput].  For every
    record whose orchestration trace has both, each a mapping, with a
    well-formed output, and whenever normalizing the raw response
    content with [_safe_json_loads] returns a value that [json.dumps]
    writes: processing takes the usage as input/output token counts (0
    when missing) with unit TOKENS when the usage metadata is present
    and as the empty mapping otherwise, and closes the Generation this
    same record opened with the dump of the normalized content and that
    usage; no other Generation call is made.  In a record without
    [modelInvocationInput], no Generation call is made at all, whatever
    Generation an earlier record left open. *)
Theorem model_invocation_output_closes_generation_of_same_record parent w :
  (forall d input_data output raw_response dumped,
      dict_lookup "modelInvocationInput" d = Some (PyDict input_data) ->
      dict_lookup "modelInvocationOutput" d = Some (PyDict output) ->
      output_well_formed output = true ->
      _safe_json_loads (raw_content output) = Ret raw_response ->
      json_dumps raw_response = Ret dumped ->
      exists rest,
        calls (snd (_process_orchestration_trace parent (PyDict d) w)) =
        calls w ++ generation_call parent (next_handle w) input_data
                :: GenerationEnd (next_handle w) (PyStr dumped)
                     (usage_details output)
                :: rest
        /\ Forall (record_call_ok false (S (next_handle w))) rest)
  /\ (forall d,
        dict_lookup "modelInvocationInput" d = None ->
        exists rest,
          calls (snd (_process_orchestration_trace parent (PyDict d) w)) =
          calls w ++ rest
          /\ Forall (record_call_ok false (next_handle w)) rest).
Proof.
  split.
  - intros d input_data output raw_response dumped Hin Hout Hwf Hraw Hdump.
    rewrite _process_orchestration_trace_blocks. unfold bind.
    rewrite (model_invocation_block_closes_with parent d input_data output
               raw_response dumped w Hin Hout Hwf Hraw Hdump).
    set (w1 := World _ _ _ _).
    destruct (rationale_observation_block_appends (S (next_handle w)) parent
                (PyDict d) w1 (le_n _)) as (_ & _ & _ & l & Hl & HP).
    exists l. split; [|exact HP].
    rewrite Hl. unfold w1. simpl. now rewrite <- app_assoc.
  - intros d Hin.
    rewrite _process_orchestration_trace_blocks. unfold bind.
    rewrite (model_invocation_block_skips _ _ _ Hin).
    destruct (rationale_observation_block_appends (next_handle w) parent
                (PyDict d) w (le_n _)) as (_ & _ & _ & l & Hl & HP).
    now exists l.
Qed.

(** C5 (amended).  The tracer keeps no record of an open Generation, so
    a new [modelInvocationInput] closes nothing.  For every world in
    which a Generation is open, processing a record that carries a
    [modelInvocationInput] mapping opens a new Generation under a fresh
    handle and leaves the stale Generation open. *)
Theorem stale_generation_stays_open_on_next_input parent d input_data w h :
  dict_lookup "modelInvocationInput" d = Some (PyDict input_data) ->
  h < next_handle w ->
  generation_is_open (calls w) h = true ->
  generation_is_open
    (calls (snd (_process_orchestration_trace parent (PyDict d) w))) h = true
  /\ In (generation_call parent (next_handle w) input_data)
        (calls (snd (_process_orchestration_trace parent (PyDict d) w))).
Proof.
  intros Hin Hh Hopen. split.
  - destruct (_process_orchestration_trace_appends (next_handle w) parent
                (PyDict d) w (le_n _)) as (_ & _ & _ & l & Hl & HP).
    rewrite Hl. now apply (record_calls_keep_open (next_handle w)).
  - rewrite _process_orchestration_trace_blocks. unfold bind.
    destruct (model_invocation_block_opens parent d input_data w Hin) as (l & Hl).
    destruct (model_invocation_block parent (PyDict d) w) as [[[]|e] w1];
      simpl in *.
    + destruct (rationale_observation_block_appends 0 parent (PyDict d) w1
                  (Nat.le_0_l _)) as (_ & _ & _ & l' & Hl' & _).
      rewrite Hl', Hl. apply in_or_app. left. apply in_or_app. right. now left.
    + rewrite Hl. apply in_or_app. right. now left.
Qed.

(** C8 (amended).  For every record that holds a [modelInvocationInput]
    mapping and a well-formed [modelInvocationOutput] mapping with usage
    metadata inputTokens 10 and outputTokens 5, whenever normalizing the
    raw response content returns a value that [json.dumps] writes, and
    for every order [d'] of the record's keys: processing opens one
    Generation and then closes that Generation, with the dump of the
    normalized content and usage input 10, output 5, unit TOKENS, and
    makes no other Generation call. *)
Theorem input_and_output_in_one_record_open_then_close
    parent d d' input_data output metadata usage raw_response dumped w :
  NoDup (map fst d) ->
  Permutation d d' ->
  dict_lookup "modelInvocationInput" d = Some (PyDict input_data) ->
  dict_lookup "modelInvocationOutput" d = Some (PyDict output) ->
  output_well_formed output = true ->
  dict_lookup "metadata" output = Some (PyDict metadata) ->
  dict_lookup "usage" metadata = Some (PyDict usage) ->
  dict_lookup "inputTokens" usage = Some (PyInt 10) ->
  dict_lookup "outputTokens" usage = Some (PyInt 5) ->
  _safe_json_loads (raw_content output) = Ret raw_response ->
  json_dumps raw_response = Ret dumped ->
  exists rest,
    calls (snd (_process_orchestration_trace parent (PyDict d') w)) =
    calls w ++ generation_call parent (next_handle w) input_data
            :: GenerationEnd (next_handle w) (PyStr dumped)
                 (PyDict [("input", PyInt 10); ("output", PyInt 5);
                          ("unit", PyStr "TOKENS")])
            :: rest
    /\ Forall (record_call_ok false (S (next_handle w))) rest.
Proof.
  intros Hnd Hperm Hin Hout Hwf Hmeta Husage Hit Hot Hraw Hdump.
  rewrite (dict_lookup_permutation "modelInvocationInput" _ _ Hnd Hperm) in Hin.
  rewrite (dict_lookup_permutation "modelInvocationOutput" _ _ Hnd Hperm) in Hout.
  rewrite _process_orchestration_trace_blocks. unfold bind.
  rewrite (model_invocation_block_closes_with parent d' input_data output
             raw_response dumped w Hin Hout Hwf Hraw Hdump).
  set (w1 := World _ _ _ _).
  destruct (rationale_observation_block_appends (S (next_handle w)) parent
              (PyDict d') w1 (le_n _)) as (_ & _ & _ & l & Hl & HP).
  exists l. split; [|exact HP].
  rewrite Hl. unfold w1. simpl. rewrite <- app_assoc. simpl.
  unfold usage_details, lookup_or. now rewrite Hmeta, Husage, Hit, Hot.
Qed.

(** C9 (amended).  For every raw record that lacks the orchestration-trace
    path, processing yields no sub-event: it makes no call and leaves the
    world as it was.  It does not raise when every level of the envelope
    that is present is a mapping; a level that is present and is not a
    mapping is outside this guarantee. *)
Theorem record_without_orchestration_trace_is_ignored chunk parent w :
  orchestration_path chunk = None ->
  snd (_process_trace_chunk chunk parent w) = w
  /\ (envelope_of_mappings chunk = true ->
      _process_trace_chunk chunk parent w = (Ret tt, w)).
Proof.
  unfold orchestration_path, envelope_of_mappings, _process_trace_chunk,
    bind, lift.
  destruct chunk as [| | | | | | |c]; simpl;
    try (intros _; split; [reflexivity|discriminate]).
  destruct (dict_lookup "trace" c) as [trace_data|]; simpl;
    [|intros _; split; reflexivity].
  destruct trace_data as [| | | | | | |t]; simpl;
    try (intros _; split; [reflexivity|discriminate]).
  destruct (dict_lookup "trace" t) as [inner|] eqn:Et; simpl;
    [|intros _; split; reflexivity].
  destruct inner as [| | | | s| |items|i]; simpl;
    try (intros _; split; [reflexivity|discriminate]).
  - destruct (contains_substring _ s); simpl; rewrite ?Et; simpl;
      intros _; split; try reflexivity; discriminate.
  - destruct (existsb _ items); simpl; rewrite ?Et; simpl;
      intros _; split; try reflexivity; discriminate.
  - unfold dict_has. intros ->. split; reflexivity.
Qed.


(** ** Further properties of one record *)

(** X1.  A record whose orchestration trace holds a
    [modelInvocationOutput] but no [modelInvocationInput] (and no
    rationale or observation): processing makes no call, leaves the world
    as it was and does not raise, whatever the output holds. *)
Theorem model_invocation_output_alone_is_ignored parent d w :
  dict_has "modelInvocationOutput" d = true ->
  dict_lookup "modelInvocationInput" d = None ->
  dict_lookup "rationale" d = None ->
  dict_lookup "observation" d = None ->
  _process_orchestration_trace parent (PyDict d) w = (Ret tt, w).
Proof.
  intros _ Hin Hr Ho.
  unfold _process_orchestration_trace, bind, lift, py_contains, dict_has.
  now rewrite Hin, Hr, Ho.
Qed.

(** X2.  An observation whose [agentCollaboratorInvocationOutput] is a
    mapping without [agentCollaboratorName] (and which has no
    [finalResponse]): the child span is opened under the name
    collaborator_unknown, with the dump of the collaborator's output as
    input, and is closed at once. *)
Theorem collaborator_span_name_defaults_to_unknown parent d output text w :
  dict_lookup "finalResponse" d = None ->
  dict_lookup "agentCollaboratorInvocationOutput" d = Some (PyDict output) ->
  dict_lookup "agentCollaboratorName" output = None ->
  json_dumps (lookup_or "output" output (PyDict [])) = Ret text ->
  _process_observation parent (PyDict d) w =
  (Ret tt,
   World (S (next_handle w)) (uuids_minted w) (stdout w)
     (calls w
      ++ [OpenSpan parent (next_handle w) "collaborator_unknown" (PyStr text)
            (Some (PyDict
                     [("collaborator_arn",
                       lookup_or "agentCollaboratorAliasArn" output (PyStr ""));
                      ("trace_id", lookup_or "traceId" d (PyStr ""))]));
          SpanEnd (next_handle w) None])).
Proof.
  intros Hf Hc Hn Ht.
  unfold _process_observation, bind, lift, py_contains, py_getitem, py_get,
    dict_has, lookup_or in *.
  rewrite Hf, Hc. simpl. rewrite Hn, py_str_text. simpl. rewrite Ht. simpl.
  unfold span_end, record_call. simpl.
  now rewrite <- app_assoc.
Qed.

(** X3.  [_safe_json_loads] returns a mapping as it is, and what it
    raises is what the library raised and no handler caught: an
    exception of [json.loads] on the text of the payload, of a class
    other than [JSONDecodeError], or an exception of [str] on the
    payload.  It raises nothing of its own. *)
Theorem safe_json_loads_raises_only_what_the_library_raises
    (data : pyval) (e : exn) :
  _safe_json_loads data = Raise e ->
  is_dict data = false
  /\ ((exists text,
         json_loads text = Raise e
         /\ exn_class_of e <> JSONDecodeError
         /\ (data = PyStr text
             \/ exists b, data = PyBytes b /\ bytes_decode_utf8 b = Ret text))
      \/ py_str data = Raise e).
Proof.
  unfold _safe_json_loads.
  destruct data as [| | | |s|b| |entries]; unfold bind_result;
    try (destruct (py_str _) as [text|e'] eqn:E; [discriminate|];
         intros [= <-]; split; [reflexivity|now right]);
    try discriminate.
  - unfold try_except_classes.
    destruct (json_loads s) as [document|e'] eqn:E; [discriminate|].
    cbn [existsb]. rewrite orb_false_r.
    destruct (exn_class_eqb (exn_class_of e') JSONDecodeError) eqn:Ec;
      [discriminate|].
    intros [= <-]. split; [reflexivity|]. left. exists s.
    split; [exact E|]. split; [|now left].
    intros Hc. rewrite Hc in Ec. discriminate.
  - unfold try_except_classes, bytes_decode_utf8.
    destruct (utf8_valid b) eqn:Ev; cbn [bind_result existsb exn_class_of].
    + destruct (json_loads _) as [document|e'] eqn:E; [discriminate|].
      rewrite orb_false_r.
      destruct (exn_class_eqb (exn_class_of e') JSONDecodeError) eqn:Ec;
        cbn [orb].
      * destruct (py_str _) as [text|e''] eqn:Es; [discriminate|].
        intros [= <-]. split; [reflexivity|now right].
      * destruct (exn_class_eqb (exn_class_of e') UnicodeDecodeError).
        -- destruct (py_str _) as [text|e''] eqn:Es; [discriminate|].
           intros [= <-]. split; [reflexivity|now right].
        -- intros [= <-]. split; [reflexivity|]. left.
           exists (string_of_list_byte b). split; [exact E|]. split.
           ++ intros Hc. rewrite Hc in Ec. discriminate.
           ++ right. exists b. split; [reflexivity|]. now rewrite Ev.
    + cbn [exn_class_eqb orb].
      destruct (py_str _) as [text|e''] eqn:Es; [discriminate|].
      intros [= <-]. split; [reflexivity|now right].
Qed.

(** ** Whether a record raises does not depend on the world

    The world only supplies handles, and no branch looks at a handle. *)

Ltac split_outcomes :=
  repeat match goal with
         | |- context [match ?r with Ret _ => _ | Raise _ => _ end] =>
             destruct r; simpl
         | |- context [if ?b then _ else _] => destruct b; simpl
         end.

Lemma _process_observation_outcome parent observation w parent' w' :
  fst (_process_observation parent observation w) =
  fst (_process_observation parent' observation w').
Proof.
  unfold _process_observation, bind, lift, client_event, client_span, span_end,
    record_call, fresh_handle, ret.
  simpl. split_outcomes; reflexivity.
Qed.

Lemma _process_orchestration_trace_outcome parent orchestration_trace w parent' w' :
  fst (_process_orchestration_trace parent orchestration_trace w) =
  fst (_process_orchestration_trace parent' orchestration_trace w').
Proof.
  unfold _process_orchestration_trace, bind, lift, client_event,
    client_generation, generation_end, record_call, fresh_handle, ret.
  simpl.
  repeat match goal with
         | |- context [match ?r with Ret _ => _ | Raise _ => _ end] =>
             lazymatch r with
             | context [_process_observation] => fail
             | _ => destruct r; simpl
             end
         | |- context [if ?b then _ else _] => destruct b; simpl
         end;
    try reflexivity; apply _process_observation_outcome.
Qed.

Lemma _process_trace_chunk_outcome chunk parent w :
  fst (_process_trace_chunk chunk parent w) = chunk_outcome chunk.
Proof.
  unfold chunk_outcome, _process_trace_chunk, bind, lift, ret.
  split_outcomes; try reflexivity.
  apply _process_orchestration_trace_outcome.
Qed.

(** ** The loop over the stream *)

Lemma _debug_print_none message w :
  exists out,
    _debug_print debug message None w =
    (Ret tt, World (next_handle w) (uuids_minted w) out (calls w)).
Proof.
  unfold _debug_print, bind, print, ret.
  destruct debug, w; simpl; eauto.
Qed.

Lemma record_call_ok_not_chunk_error generations n c :
  record_call_ok generations n c -> is_chunk_error c = false.
Proof.
  destruct c; simpl; try reflexivity.
  intros [->| ->]; reflexivity.
Qed.

Lemma record_calls_no_chunk_error generations n l :
  Forall (record_call_ok generations n) l -> filter is_chunk_error l = [].
Proof.
  induction 1 as [|c l Hc _ IH]; [reflexivity|].
  simpl. now rewrite (record_call_ok_not_chunk_error _ _ _ Hc).
Qed.

(** One turn of the loop: the record's calls, and after them the error
    event when the record raised.  The turn itself never raises. *)
Lemma loop_turn {B} event span (k : unit -> M B) w :
  exists out,
    bind (try_except
            (_process_trace_chunk event span)
            (fun chunk_error =>
               do _ <- _debug_print debug
                         ("Error processing chunk: " ++ exn_message chunk_error)
                         None;
               client_event span "chunk_processing_error"
                 (PyStr (exn_message chunk_error)) None))
         k w =
    let w1 := snd (_process_trace_chunk event span w) in
    match chunk_outcome event with
    | Ret u => k u w1
    | Raise e =>
        k tt (World (next_handle w1) (uuids_minted w1) out
                (calls w1 ++ [chunk_error_event span e]))
    end.
Proof.
  rewrite <- (_process_trace_chunk_outcome event span w).
  unfold bind, try_except.
  destruct (_process_trace_chunk event span w) as [[[]|e] w1]; cbv beta iota.
  - now exists [].
  - destruct (_debug_print_none ("Error processing chunk: " ++ exn_message e) w1)
      as (out & ->).
    exists out. reflexivity.
Qed.

(** The loop raises exactly when reading the stream does. *)
Lemma process_completion_result stream span w :
  fst (process_completion debug stream span w) =
  match stream_failure stream with
  | Some e => Raise e
  | None => Ret tt
  end.
Proof.
  revert w. induction stream as [|event rest IH|e]; intros w;
    cbn [process_completion stream_failure]; try reflexivity.
  destruct (loop_turn event span
              (fun _ => process_completion debug rest span) w) as (out & ->).
  cbv zeta. destruct (chunk_outcome event) as [[]|e]; apply IH.
Qed.

Lemma process_completion_appends stream root n w :
  n <= next_handle w ->
  next_handle w <= next_handle (snd (process_completion debug stream root w))
  /\ uuids_minted (snd (process_completion debug stream root w)) = uuids_minted w
  /\ exists l,
       calls (snd (process_completion debug stream root w)) = calls w ++ l
       /\ Forall (stream_call_ok root n) l.
Proof.
  revert w. induction stream as [|event rest IH|e]; intros w Hw;
    cbn [process_completion].
  - repeat split; auto. exists []. now rewrite app_nil_r.
  - destruct (loop_turn event root
                (fun _ => process_completion debug rest root) w) as (out & ->).
    destruct (_process_trace_chunk_appends n event root w Hw)
      as (Hn & Hu & _ & l & Hl & HP).
    set (w1 := snd (_process_trace_chunk event root w)) in *.
    cbv zeta. destruct (chunk_outcome event) as [[]|e].
    + destruct (IH w1) as (Hn' & Hu' & l' & Hl' & HP'); [lia|].
      repeat split; [lia|congruence|].
      exists (l ++ l'). split; [rewrite Hl', Hl; now rewrite app_assoc|].
      apply Forall_app. split; [|exact HP'].
      eapply Forall_impl; [|exact HP]. intros c Hc. now left.
    + set (w2 := World _ _ _ _).
      destruct (IH w2) as (Hn' & Hu' & l' & Hl' & HP'); [simpl; lia|].
      simpl in *. repeat split; [lia|congruence|].
      exists (l ++ chunk_error_event root e :: l'). split.
      * rewrite Hl', Hl. rewrite <- !app_assoc. reflexivity.
      * apply Forall_app. split.
        -- eapply Forall_impl; [|exact HP]. intros c Hc. now left.
        -- constructor; [right; eauto|exact HP'].
  - repeat split; auto. exists []. now rewrite app_nil_r.
Qed.

(** A stream of records that all succeed: the loop is the records
    processed in turn. *)
Lemma process_completion_all_succeed events span w :
  Forall (fun ev => chunk_outcome ev = Ret tt) events ->
  process_completion debug (stream_of events) span w =
  (Ret tt, after_records events span w).
Proof.
  intros H. revert w. induction H as [|ev events Hev _ IH]; intros w;
    cbn [stream_of process_completion after_records]; [reflexivity|].
  destruct (loop_turn ev span
              (fun _ => process_completion debug (stream_of events) span) w)
    as (out & ->).
  cbv zeta. rewrite Hev. apply IH.
Qed.

(** ** One session *)

Ltac step_debug :=
  match goal with
  | |- context [_debug_print debug ?m None ?w0] =>
      let out := fresh "out" in
      let E := fresh "E" in
      destruct (_debug_print_none m w0) as (out & E);
      rewrite E; clear E;
      cbv beta iota delta [next_handle uuids_minted stdout calls]
  end.

Lemma trace_agent_interaction_session input_text w :
  exists out middle,
    Forall (stream_call_ok (S (next_handle w)) (S (S (next_handle w)))) middle
    /\ fst (trace_agent_interaction debug input_text w) =
      Ret (match backend_failure input_text w with
           | None => succeeded (session_id_of w)
           | Some e => failed e
           end)
    /\ calls (snd (trace_agent_interaction debug input_text w)) =
       calls w ++ opening_calls input_text w ++ middle
               ++ closing_calls w (backend_failure input_text w)
    /\ uuids_minted (snd (trace_agent_interaction debug input_text w)) =
       S (uuids_minted w)
    /\ match backend_reply input_text w with
       | Raise _ => middle = []
       | Ret response =>
           calls (snd (process_completion debug (completion response)
                         (S (next_handle w)) (loop_start input_text w out))) =
           calls (loop_start input_text w out) ++ middle
       end.
Proof.
  destruct w as [nh um so cs].
  unfold backend_failure, backend_reply, loop_start, opening_calls,
    session_id_of, trace_metadata.
  cbv [trace_agent_interaction try_except_locals bind uuid_uuid4
       create_base_trace langfuse_trace client_span fresh_handle record_call
       ret bedrock_invoke_agent lift span_end trace_update
       next_handle uuids_minted stdout calls trace_handle id].
  step_debug.
  destruct (invoke_agent _ _ _ _ _) as [response|e].
  - step_debug. rewrite <- !app_assoc. cbn [app].
    match goal with
    | |- context [process_completion debug ?s ?r ?w0] =>
        pose proof (process_completion_result s r w0) as Hr;
        destruct (process_completion_appends s r (S (S nh)) w0 (le_n _))
          as (_ & Hu & l & Hl & HP);
        exists out0, l; split; [exact HP|];
        destruct (process_completion debug s r w0) as [[[]|e] [nh' um' so' cs']]
    end; simpl in Hr, Hu, Hl.
    + destruct (stream_failure (completion response)); [discriminate|].
      simpl. repeat split; [|exact Hu|exact Hl].
      rewrite Hl. rewrite <- !app_assoc. reflexivity.
    + destruct (stream_failure (completion response)) as [e'|];
        [|discriminate].
      injection Hr as ->. step_debug.
      simpl. repeat split; [|exact Hu|exact Hl].
      rewrite Hl. rewrite <- !app_assoc. reflexivity.
  - step_debug. exists [], []. simpl. repeat split; [constructor|].
    rewrite <- !app_assoc. reflexivity.
Qed.

(** ** Claims about one session *)

Lemma stream_calls_leave_root_open root l :
  Forall (stream_call_ok root (S root)) l -> filter (ends_span root) l = [].
Proof.
  induction 1 as [|c l Hc _ IH]; [reflexivity|].
  simpl. rewrite IH.
  destruct Hc as [Hc|[e ->]]; [|reflexivity].
  destruct c; simpl in *; try reflexivity.
  destruct (Nat.eqb_spec root h); [lia|reflexivity].
Qed.

(** C2.  For every input text, a session whose backend call raises, or
    whose stream raises while it is read, ends the root span (which is
    open by then) with the error message, records the mapping
    error: message on the Trace, and returns status error with that
    message.  Whatever the backend does, [trace_agent_interaction]
    returns a value: it raises nothing. *)
Theorem fatal_backend_error_is_recorded_and_returned input_text w :
  (exists result, fst (trace_agent_interaction debug input_text w) = Ret result)
  /\ (forall e,
        backend_failure input_text w = Some e ->
        fst (trace_agent_interaction debug input_text w) =
          Ret (PyDict [("status", PyStr "error");
                       ("message", PyStr (exn_message e))])
        /\ exists middle,
             calls (snd (trace_agent_interaction debug input_text w)) =
             calls w ++ opening_calls input_text w ++ middle
                     ++ [SpanEnd (S (next_handle w)) (Some (exn_message e));
                         TraceUpdate (next_handle w)
                           (PyDict [("error", PyStr (exn_message e))])]).
Proof.
  destruct (trace_agent_interaction_session input_text w)
    as (out & middle & _ & Hres & Hcalls & _).
  split; [eauto|].
  intros e He. rewrite He in Hres, Hcalls. split; [exact Hres|].
  now exists middle.
Qed.

(** C3.  In every execution of [trace_agent_interaction] the root span is
    opened, and its end is called exactly once, after the opening and
    before the call returns: the calls made are the opening of the root
    span among [before], one [SpanEnd] on the root span, and [after],
    with no end of the root span in [before] or [after]; and the call
    returns. *)
Theorem root_span_is_ended_exactly_once input_text w :
  exists before error after result,
    fst (trace_agent_interaction debug input_text w) = Ret result
    /\ calls (snd (trace_agent_interaction debug input_text w)) =
       calls w ++ before ++ SpanEnd (S (next_handle w)) error :: after
    /\ In (OpenSpan (next_handle w) (S (next_handle w)) "orchestration"
             (PyStr input_text) None) before
    /\ filter (ends_span (S (next_handle w))) before = []
    /\ filter (ends_span (S (next_handle w))) after = [].
Proof.
  destruct (trace_agent_interaction_session input_text w)
    as (out & middle & HP & Hres & Hcalls & _).
  exists (opening_calls input_text w ++ middle).
  destruct (backend_failure input_text w) as [e|]; simpl in Hcalls.
  - exists (Some (exn_message e)),
      [TraceUpdate (next_handle w) (PyDict [("error", PyStr (exn_message e))])].
    eexists. split; [exact Hres|]. split.
    { rewrite Hcalls. now rewrite <- !app_assoc. }
    split; [simpl; auto|]. split; [|reflexivity].
    rewrite filter_app, (stream_calls_leave_root_open _ _ HP). simpl.
    destruct (Nat.eqb_spec (S (next_handle w)) (next_handle w)); [lia|].
    reflexivity.
  - exists None, []. eexists. split; [exact Hres|]. split.
    { rewrite Hcalls. now rewrite <- !app_assoc. }
    split; [simpl; auto|]. split; [|reflexivity].
    rewrite filter_app, (stream_calls_leave_root_open _ _ HP). simpl.
    destruct (Nat.eqb_spec (S (next_handle w)) (next_handle w)); [lia|].
    reflexivity.
Qed.

(** C10.  For every successful call, the trace_id of the result is the
    identity minted for this call; the Trace is created at the sink
    under that identity, and the same identity is the sessionId of the
    backend call. *)
Theorem success_result_carries_the_session_identity input_text w trace_id :
  fst (trace_agent_interaction debug input_text w) =
    Ret (PyDict [("status", PyStr "success"); ("trace_id", PyStr trace_id)]) ->
  trace_id = uuid4 (uuids_minted w)
  /\ uuids_minted (snd (trace_agent_interaction debug input_text w)) =
     S (uuids_minted w)
  /\ exists rest,
       calls (snd (trace_agent_interaction debug input_text w)) =
       calls w
       ++ LangfuseTrace (next_handle w) trace_id "Bedrock Agent Invocation"
            (PyStr input_text) trace_metadata
       :: OpenSpan (next_handle w) (S (next_handle w)) "orchestration"
            (PyStr input_text) None
       :: InvokeAgent (getenv "AGENT_ID") (getenv "AGENT_ALIAS_ID") trace_id
            true input_text
       :: rest.
Proof.
  destruct (trace_agent_interaction_session input_text w)
    as (out & middle & _ & Hres & Hcalls & Hu & _).
  rewrite Hres. intros H.
  destruct (backend_failure input_text w) as [e|]; [discriminate|].
  injection H as <-. split; [reflexivity|]. split; [exact Hu|].
  eexists. rewrite Hcalls. reflexivity.
Qed.

Lemma stream_failure_stream_of events : stream_failure (stream_of events) = None.
Proof. induction events; [reflexivity|assumption]. Qed.

Lemma after_records_appends events span n w :
  n <= next_handle w ->
  next_handle w <= next_handle (after_records events span w)
  /\ exists l,
       calls (after_records events span w) = calls w ++ l
       /\ Forall (record_call_ok true n) l.
Proof.
  revert w. induction events as [|ev events IH]; intros w Hw; simpl.
  - split; [lia|]. exists []. now rewrite app_nil_r.
  - destruct (_process_trace_chunk_appends n ev span w Hw)
      as (Hn & _ & _ & l & Hl & HP).
    destruct (IH (snd (_process_trace_chunk ev span w))) as (Hn' & l' & Hl' & HP');
      [lia|].
    split; [lia|]. exists (l ++ l'). split.
    + rewrite Hl', Hl. now rewrite app_assoc.
    + now apply Forall_app.
Qed.

(** A stream in which one record raises: the records before it are
    processed, the failing record is processed up to its exception and
    reported on the root span, and the records after it are processed. *)
Lemma process_completion_one_failure pre bad post e root w :
  Forall (fun ev => chunk_outcome ev = Ret tt) pre ->
  chunk_outcome bad = Raise e ->
  Forall (fun ev => chunk_outcome ev = Ret tt) post ->
  exists out,
    let w_bad := snd (_process_trace_chunk bad root (after_records pre root w)) in
    process_completion debug (stream_of (pre ++ bad :: post)) root w =
    (Ret tt,
     after_records post root
       (World (next_handle w_bad) (uuids_minted w_bad) out
          (calls w_bad ++ [chunk_error_event root e]))).
Proof.
  intros Hpre Hbad Hpost. revert w.
  induction Hpre as [|ev pre Hev _ IH]; intros w;
    cbn [app stream_of process_completion after_records].
  - destruct (loop_turn bad root
                (fun _ => process_completion debug (stream_of post) root) w)
      as (out & ->).
    cbv zeta. rewrite Hbad. exists out.
    now apply process_completion_all_succeed.
  - destruct (loop_turn ev root
                (fun _ => process_completion debug
                            (stream_of (pre ++ bad :: post)) root) w)
      as (out & ->).
    cbv zeta. rewrite Hev. apply IH.
Qed.

(** C4.  For every stream of records in which one record raises while it
    is processed and the others do not: the exception is caught, one
    event named chunk_processing_error is emitted on the root span with
    the exception's message as input, right after the calls the failing
    record had made; the records after it are all processed; the root
    span is ended without error and the call returns status success with
    the trace id.  No other chunk_processing_error event is emitted.
    ([out] and [out'] are the lines printed so far, which depend on
    [debug].) *)
Theorem one_failing_record_is_reported_and_the_rest_processed
    input_text w response pre bad post e :
  backend_reply input_text w = Ret response ->
  completion response = stream_of (pre ++ bad :: post) ->
  Forall (fun ev => chunk_outcome ev = Ret tt) pre ->
  chunk_outcome bad = Raise e ->
  Forall (fun ev => chunk_outcome ev = Ret tt) post ->
  exists out out' new,
    let root := S (next_handle w) in
    let w_bad :=
      snd (_process_trace_chunk bad root
             (after_records pre root (loop_start input_text w out))) in
    let w_reported :=
      World (next_handle w_bad) (uuids_minted w_bad) out'
        (calls w_bad
         ++ [SpanEvent root "chunk_processing_error" (PyStr (exn_message e))
               None]) in
    fst (trace_agent_interaction debug input_text w) =
      Ret (PyDict [("status", PyStr "success");
                   ("trace_id", PyStr (uuid4 (uuids_minted w)))])
    /\ calls (snd (trace_agent_interaction debug input_text w)) =
       calls (after_records post root w_reported) ++ [SpanEnd root None]
    /\ calls (snd (trace_agent_interaction debug input_text w)) = calls w ++ new
    /\ filter is_chunk_error new =
       [SpanEvent root "chunk_processing_error" (PyStr (exn_message e)) None].
Proof.
  intros Hreply Hstream Hpre Hbad Hpost.
  destruct (trace_agent_interaction_session input_text w)
    as (out & middle & _ & Hres & Hcalls & _ & Hloop).
  assert (Hok : backend_failure input_text w = None).
  { unfold backend_failure. rewrite Hreply, Hstream.
    apply stream_failure_stream_of. }
  rewrite Hok in Hres, Hcalls. rewrite Hreply, Hstream in Hloop.
  set (root := S (next_handle w)) in *.
  destruct (process_completion_one_failure pre bad post e root
              (loop_start input_text w out) Hpre Hbad Hpost) as (out' & Hrun).
  cbv zeta in Hrun. rewrite Hrun in Hloop. simpl fst in Hloop. simpl snd in Hloop.
  exists out, out', (opening_calls input_text w ++ middle ++ [SpanEnd root None]).
  cbv zeta. fold (chunk_error_event root e).
  split; [exact Hres|]. split.
  { rewrite Hloop, Hcalls. unfold loop_start. simpl calls.
    now rewrite <- !app_assoc. }
  split; [exact Hcalls|].
  (* the calls of the loop, record by record *)
  set (w0 := loop_start input_text w out) in *.
  assert (H0 : S root <= next_handle w0) by (simpl; lia).
  destruct (after_records_appends pre root (S root) w0 H0)
    as (Hn1 & l1 & Hl1 & HP1).
  set (w1 := after_records pre root w0) in *.
  destruct (_process_trace_chunk_appends (S root) bad root w1)
    as (Hn2 & _ & _ & l2 & Hl2 & HP2); [lia|].
  set (w2 := snd (_process_trace_chunk bad root w1)) in *.
  set (w3 := World (next_handle w2) (uuids_minted w2) out'
               (calls w2 ++ [chunk_error_event root e])) in *.
  destruct (after_records_appends post root (S root) w3)
    as (_ & l3 & Hl3 & HP3); [simpl; lia|].
  rewrite Hl3 in Hloop. simpl calls in Hloop. rewrite Hl2, Hl1 in Hloop.
  assert (Hw0 : calls w0 = calls w ++ opening_calls input_text w) by reflexivity.
  rewrite Hw0 in Hloop. rewrite <- !app_assoc in Hloop.
  do 2 apply app_inv_head in Hloop. subst middle.
  rewrite !filter_app.
  rewrite (record_calls_no_chunk_error _ _ _ HP1),
    (record_calls_no_chunk_error _ _ _ HP2),
    (record_calls_no_chunk_error _ _ _ HP3).
  reflexivity.
Qed.

End TracerProperties.

(** * Further properties *)

(** ** Code that does not print *)

Lemma blind_ret {A} (a : A) : stdout_blind (ret a).
Proof. intros w out. reflexivity. Qed.

Lemma blind_lift {A} (r : result A) : stdout_blind (lift r).
Proof. intros w out. reflexivity. Qed.

Lemma blind_bind {A B} (m : M A) (k : A -> M B) :
  stdout_blind m -> (forall a, stdout_blind (k a)) -> stdout_blind (bind m k).
Proof.
  intros Hm Hk w out. unfold bind. rewrite Hm.
  destruct (m w) as [[a|e] w1]; simpl; [apply Hk|reflexivity].
Qed.

Lemma blind_if {A} (b : bool) (m1 m2 : M A) :
  stdout_blind m1 -> stdout_blind m2 -> stdout_blind (if b then m1 else m2).
Proof. now destruct b. Qed.

Lemma blind_record_call (c : call) : stdout_blind (record_call c).
Proof. intros w out. reflexivity. Qed.

Lemma blind_fresh_handle : stdout_blind fresh_handle.
Proof. intros w out. reflexivity. Qed.

Ltac blind_step :=
  first
    [ apply blind_ret
    | apply blind_lift
    | apply blind_record_call
    | apply blind_fresh_handle
    | apply blind_if
    | apply blind_bind; [|intros ?] ].

Lemma same_trace_set_stdout (w w' : world) :
  same_trace w w' -> w' = set_stdout (stdout w') w.
Proof.
  destruct w, w'. unfold same_trace, set_stdout. simpl.
  intros (-> & -> & ->). reflexivity.
Qed.

Lemma same_trace_of_set_stdout (out : list string) (w : world) :
  same_trace w (set_stdout out w).
Proof. repeat split. Qed.

Section DebugOnlyPrints.

Context {runtime : PyRuntime} {environment : Environment}.

Lemma _process_trace_chunk_blind chunk parent :
  stdout_blind (_process_trace_chunk chunk parent).
Proof.
  unfold _process_trace_chunk, _process_orchestration_trace,
    _process_observation, client_event, client_span, client_generation,
    generation_end, span_end.
  repeat blind_step.
Qed.

(** Processing a record in two worlds with the same trace. *)
Lemma _process_trace_chunk_same_trace chunk parent w w' :
  same_trace w w' ->
  fst (_process_trace_chunk chunk parent w') =
    fst (_process_trace_chunk chunk parent w)
  /\ same_trace (snd (_process_trace_chunk chunk parent w))
       (snd (_process_trace_chunk chunk parent w')).
Proof.
  intros H. rewrite (same_trace_set_stdout _ _ H).
  rewrite _process_trace_chunk_blind. simpl.
  split; [reflexivity|apply same_trace_of_set_stdout].
Qed.

Lemma process_completion_same_trace debug debug' stream root w w' :
  same_trace w w' ->
  fst (process_completion debug' stream root w') =
    fst (process_completion debug stream root w)
  /\ same_trace (snd (process_completion debug stream root w))
       (snd (process_completion debug' stream root w')).
Proof.
  revert w w'. induction stream as [|event rest IH|e]; intros w w' H;
    cbn [process_completion].
  - split; [reflexivity|exact H].
  - destruct (loop_turn debug event root
                (fun _ => process_completion debug rest root) w) as (out & ->).
    destruct (loop_turn debug' event root
                (fun _ => process_completion debug' rest root) w')
      as (out' & ->).
    cbv zeta.
    destruct (_process_trace_chunk_same_trace event root w w' H)
      as (_ & Hn & Hu & Hc).
    destruct (chunk_outcome event) as [[]|e]; apply IH.
    + repeat split; assumption.
    + repeat split; simpl; congruence.
  - split; [reflexivity|exact H].
Qed.

(** X4.  The debug flag only decides what is printed: with debug on or
    off, [trace_agent_interaction] returns the same result and makes the
    same collaborator calls, for every input, backend and record. *)
Theorem debug_flag_changes_neither_result_nor_calls debug debug' input_text w :
  fst (trace_agent_interaction debug' input_text w) =
    fst (trace_agent_interaction debug input_text w)
  /\ calls (snd (trace_agent_interaction debug' input_text w)) =
     calls (snd (trace_agent_interaction debug input_text w))
  /\ uuids_minted (snd (trace_agent_interaction debug' input_text w)) =
     uuids_minted (snd (trace_agent_interaction debug input_text w)).
Proof.
  destruct (trace_agent_interaction_session debug input_text w)
    as (out & middle & _ & Hres & Hcalls & Hu & Hloop).
  destruct (trace_agent_interaction_session debug' input_text w)
    as (out' & middle' & _ & Hres' & Hcalls' & Hu' & Hloop').
  rewrite Hres, Hres', Hcalls, Hcalls', Hu, Hu'.
  repeat split.
  destruct (backend_reply input_text w) as [response|e]; [|congruence].
  destruct (process_completion_same_trace debug debug' (completion response)
              (S (next_handle w)) (loop_start input_text w out)
              (loop_start input_text w out')) as (_ & _ & _ & Hc);
    [repeat split|].
  rewrite Hloop, Hloop' in Hc. simpl in Hc.
  apply app_inv_head in Hc. now subst.
Qed.

Lemma process_completion_quiet stream root w :
  stdout (snd (process_completion false stream root w)) = stdout w.
Proof.
  revert w. induction stream as [|event rest IH|e]; intros w;
    cbn [process_completion]; try reflexivity.
  unfold bind, try_except at 1.
  destruct (_process_trace_chunk_appends 0 event root w (Nat.le_0_l _))
    as (_ & _ & Ho & _).
  destruct (_process_trace_chunk event root w) as [[[]|e] w1]; simpl in *.
  - now rewrite IH.
  - now rewrite IH.
Qed.

(** X5.  With debug off, [trace_agent_interaction] prints nothing,
    whatever the backend does and whatever the records hold. *)
Theorem no_output_without_debug input_text w :
  stdout (snd (trace_agent_interaction false input_text w)) = stdout w.
Proof.
  destruct w as [nh um so cs].
  cbv [trace_agent_interaction try_except_locals bind uuid_uuid4
       create_base_trace langfuse_trace client_span fresh_handle record_call
       ret bedrock_invoke_agent lift span_end trace_update _debug_print
       next_handle uuids_minted stdout calls trace_handle id].
  destruct (invoke_agent _ _ _ _ _) as [response|e]; [|reflexivity].
  match goal with
  | |- context [process_completion false ?s ?r ?w0] =>
      pose proof (process_completion_quiet s r w0) as Hq;
      destruct (process_completion false s r w0) as [[[]|e] [nh' um' so' cs']]
  end; simpl in Hq; exact Hq.
Qed.

End DebugOnlyPrints.

(** ** Collaborator spans are closed at once *)

Lemma spans_closed_at_once_app_bounded (n : nat) :
  forall l1 l2,
    length l1 <= n ->
    spans_closed_at_once l1 = true -> spans_closed_at_once l2 = true ->
    spans_closed_at_once (l1 ++ l2) = true.
Proof.
  induction n as [|n IH]; intros l1 l2 Hlen H1 H2.
  - destruct l1; [exact H2|simpl in Hlen; lia].
  - destruct l1 as [|c l1]; [exact H2|].
    simpl in Hlen.
    destruct c; try (simpl in *; apply IH; [lia|assumption|assumption]).
    simpl in H1 |- *.
    destruct l1 as [|c' l1]; [discriminate|].
    destruct c'; try discriminate.
    destruct error; [discriminate|].
    simpl. apply andb_prop in H1 as [Hh Hrest]. rewrite Hh. simpl.
    apply IH; [simpl in Hlen; lia|assumption|assumption].
Qed.

Lemma spans_closed_at_once_app l1 l2 :
  spans_closed_at_once l1 = true -> spans_closed_at_once l2 = true ->
  spans_closed_at_once (l1 ++ l2) = true.
Proof. apply (spans_closed_at_once_app_bounded (length l1)). apply le_n. Qed.

Section EmitsRules.

Variable P : list call -> Prop.
Hypothesis P_nil : P [].
Hypothesis P_app : forall l1 l2, P l1 -> P l2 -> P (l1 ++ l2).

Lemma emits_ret {A} (a : A) : emits P (ret a).
Proof. intros w. exists []. simpl. now rewrite app_nil_r. Qed.

Lemma emits_lift {A} (r : result A) : emits P (lift r).
Proof. intros w. exists []. simpl. now rewrite app_nil_r. Qed.

Lemma emits_raise {A} (e : exn) : emits P (@raise A e).
Proof. intros w. exists []. simpl. now rewrite app_nil_r. Qed.

Lemma emits_fresh_handle : emits P fresh_handle.
Proof. intros w. exists []. simpl. now rewrite app_nil_r. Qed.

Lemma emits_record_call (c : call) : P [c] -> emits P (record_call c).
Proof. intros Hc w. exists [c]. now split. Qed.

Lemma emits_bind {A B} (m : M A) (k : A -> M B) :
  emits P m -> (forall a, emits P (k a)) -> emits P (bind m k).
Proof.
  intros Hm Hk w. unfold bind.
  destruct (Hm w) as (l & Hl & HP).
  destruct (m w) as [[a|e] w1]; simpl in *.
  - destruct (Hk a w1) as (l' & Hl' & HP').
    exists (l ++ l'). split; [|now apply P_app].
    rewrite Hl', Hl. now rewrite app_assoc.
  - now exists l.
Qed.

Lemma emits_if {A} (b : bool) (m1 m2 : M A) :
  emits P m1 -> emits P m2 -> emits P (if b then m1 else m2).
Proof. now destruct b. Qed.

Lemma emits_try_except {A} (m : M A) (handler : exn -> M A) :
  emits P m -> (forall e, emits P (handler e)) -> emits P (try_except m handler).
Proof.
  intros Hm Hh w. unfold try_except.
  destruct (Hm w) as (l & Hl & HP).
  destruct (m w) as [[a|e] w1]; simpl in *.
  - now exists l.
  - destruct (Hh e w1) as (l' & Hl' & HP').
    exists (l ++ l'). split; [|now apply P_app].
    rewrite Hl', Hl. now rewrite app_assoc.
Qed.

(** A span that is opened and ended in one breath. *)
Lemma emits_span_and_end parent name input metadata error :
  (forall h, P [OpenSpan parent h name input metadata; SpanEnd h error]) ->
  emits P (bind (client_span parent name input metadata)
                (fun span => span_end span error)).
Proof.
  intros HP w. eexists. split; [|apply (HP (next_handle w))].
  unfold bind, client_span, fresh_handle, record_call, ret, span_end. simpl.
  now rewrite <- app_assoc.
Qed.

End EmitsRules.

Ltac emits_step :=
  first
    [ apply emits_ret; [reflexivity]
    | apply emits_lift; [reflexivity]
    | apply emits_raise; [reflexivity]
    | apply emits_fresh_handle; [reflexivity]
    | apply emits_span_and_end; [intros ?; simpl; now rewrite Nat.eqb_refl]
    | apply emits_record_call; [reflexivity]
    | apply emits_if
    | apply emits_bind; [exact spans_closed_at_once_app| |intros ?]
    | apply emits_try_except; [exact spans_closed_at_once_app| |intros ?] ].

Section ChildSpans.

Context {runtime : PyRuntime} {environment : Environment}.
Variable debug : bool.

(** X6.  [_process_observation] leaves no span open: for every
    observation, whether the call returns or raises, each span it opens
    is ended without error by its very next call. *)
Theorem observation_closes_every_span_it_opens parent observation w :
  exists l,
    calls (snd (_process_observation parent observation w)) = calls w ++ l
    /\ spans_closed_at_once l = true.
Proof.
  revert w. change (emits (fun l => spans_closed_at_once l = true)
                      (_process_observation parent observation)).
  unfold _process_observation, client_event.
  repeat emits_step.
Qed.

Lemma _process_trace_chunk_emits chunk parent :
  emits (fun l => spans_closed_at_once l = true) (_process_trace_chunk chunk parent).
Proof.
  unfold _process_trace_chunk, _process_orchestration_trace,
    _process_observation, client_event, client_generation, generation_end.
  repeat emits_step.
Qed.

Lemma _debug_print_emits message :
  emits (fun l => spans_closed_at_once l = true) (_debug_print debug message None).
Proof.
  intros w. destruct (_debug_print_none debug message w) as (out & ->).
  exists []. simpl. now rewrite app_nil_r.
Qed.

Lemma process_completion_emits stream root :
  emits (fun l => spans_closed_at_once l = true)
    (process_completion debug stream root).
Proof.
  induction stream as [|event rest IH|e]; cbn [process_completion].
  - now apply emits_ret.
  - apply emits_bind; [exact spans_closed_at_once_app| |intros ?; exact IH].
    apply emits_try_except; [exact spans_closed_at_once_app| |intros e].
    + apply _process_trace_chunk_emits.
    + apply emits_bind; [exact spans_closed_at_once_app| |intros ?].
      * apply _debug_print_emits.
      * now apply emits_record_call.
  - now apply emits_raise.
Qed.

(** X7.  In every session, between the opening calls and the closing
    calls, each span that is opened with [span] (a collaborator's) is
    ended without error by the very next call, whatever the records
    hold and whether they raise or not.  This is about spans only: a
    Generation, which [generation] opens, may be left open. *)
Theorem session_closes_every_collaborator_span input_text w :
  exists middle,
    calls (snd (trace_agent_interaction debug input_text w)) =
    calls w ++ opening_calls input_text w ++ middle
            ++ closing_calls w (backend_failure input_text w)
    /\ spans_closed_at_once middle = true.
Proof.
  destruct (trace_agent_interaction_session debug input_text w)
    as (out & middle & _ & _ & Hcalls & _ & Hloop).
  exists middle. split; [exact Hcalls|].
  destruct (backend_reply input_text w) as [response|e]; [|now subst].
  destruct (process_completion_emits (completion response) (S (next_handle w))
              (loop_start input_text w out)) as (l & Hl & HP).
  rewrite Hloop in Hl. apply app_inv_head in Hl. now subst.
Qed.

End ChildSpans.

(** ** Records *)

Section RecordProperties.

Context {runtime : PyRuntime}.

#[local] Arguments _safe_json_loads : simpl never.
#[local] Arguments usage_of : simpl never.

Lemma py_contains_lookups k d d' :
  (forall key, dict_lookup key d = dict_lookup key d') ->
  py_contains k (PyDict d') = py_contains k (PyDict d).
Proof. intros H. unfold py_contains, dict_has. now rewrite H. Qed.

Lemma py_getitem_lookups k d d' :
  (forall key, dict_lookup key d = dict_lookup key d') ->
  py_getitem (PyDict d') k = py_getitem (PyDict d) k.
Proof. intros H. unfold py_getitem. now rewrite H. Qed.

Lemma py_get_lookups k default d d' :
  (forall key, dict_lookup key d = dict_lookup key d') ->
  py_get (PyDict d') k default = py_get (PyDict d) k default.
Proof. intros H. unfold py_get. now rewrite H. Qed.

(** X8.  The order of the keys does not matter: an orchestration trace,
    and an observation, with distinct keys is processed the same way in
    every order of its entries: same calls, same result or exception. *)
Theorem key_order_is_irrelevant parent d d' w :
  NoDup (map fst d) ->
  Permutation d d' ->
  _process_orchestration_trace parent (PyDict d') w =
    _process_orchestration_trace parent (PyDict d) w
  /\ _process_observation parent (PyDict d') w =
     _process_observation parent (PyDict d) w.
Proof.
  intros Hnd Hperm.
  assert (H : forall key, dict_lookup key d = dict_lookup key d')
    by (intros key; now apply dict_lookup_permutation).
  split.
  - unfold _process_orchestration_trace.
    now rewrite !(py_contains_lookups _ d d' H), !(py_getitem_lookups _ d d' H).
  - unfold _process_observation.
    now rewrite !(py_contains_lookups _ d d' H), !(py_getitem_lookups _ d d' H),
      !(py_get_lookups _ _ d d' H).
Qed.

(** X9.  A record that has the orchestration-trace path is handed to
    [_process_orchestration_trace] as it is: processing the record is
    processing its orchestration trace, whatever else the record
    holds. *)
Theorem record_with_orchestration_trace_is_dispatched
    chunk orchestration_trace parent w :
  orchestration_path chunk = Some orchestration_trace ->
  _process_trace_chunk chunk parent w =
  _process_orchestration_trace parent orchestration_trace w.
Proof.
  unfold orchestration_path, _process_trace_chunk.
  destruct chunk as [| | | | | | |c]; try discriminate.
  destruct (dict_lookup "trace" c) as [[| | | | | | |t]|] eqn:Ec;
    try discriminate.
  destruct (dict_lookup "trace" t) as [[| | | | | | |inner]|] eqn:Et;
    try discriminate.
  intros Hot. unfold bind, lift, py_get, py_contains, py_getitem, dict_has.
  rewrite Ec. simpl. rewrite Et. simpl. rewrite Hot. reflexivity.
Qed.

(** X10.  Whether processing a record returns or raises, and with which
    exception, depends on the record alone: not on the parent span, nor
    on what has been traced or printed before. *)
Theorem record_outcome_depends_on_the_record_alone chunk parent w parent' w' :
  fst (_process_trace_chunk chunk parent w) =
  fst (_process_trace_chunk chunk parent' w').
Proof.
  now rewrite !_process_trace_chunk_outcome.
Qed.

(** X11.  For valid UTF-8 bytes, [_safe_json_loads] returns the JSON
    parse of the decoded text when [json.loads] returns it; when
    [json.loads] raises [JSONDecodeError], the content of the mapping
    returned is [str] of the bytes (the text b'...'), not the decoded
    text; any other exception of [json.loads] escapes. *)
Theorem safe_json_loads_decodable_bytes (B : list byte) :
  utf8_valid B = true ->
  (forall document,
      json_loads (string_of_list_byte B) = Ret document ->
      _safe_json_loads (PyBytes B) = Ret document)
  /\ (forall e text,
        json_loads (string_of_list_byte B) = Raise e ->
        exn_class_of e = JSONDecodeError ->
        py_str (PyBytes B) = Ret text ->
        _safe_json_loads (PyBytes B) = Ret (PyDict [("content", PyStr text)]))
  /\ (forall e,
        json_loads (string_of_list_byte B) = Raise e ->
        exn_class_of e <> JSONDecodeError ->
        exn_class_of e <> UnicodeDecodeError ->
        _safe_json_loads (PyBytes B) = Raise e).
Proof.
  intros HB. unfold _safe_json_loads, try_except_classes, bytes_decode_utf8.
  rewrite HB. cbn [bind_result]. repeat split.
  - now intros document ->.
  - intros e text -> Hc Hs. cbn [existsb]. now rewrite Hc, Hs.
  - intros e -> Hj Hu. cbn [existsb].
    now rewrite (exn_class_eqb_neq _ _ Hj), (exn_class_eqb_neq _ _ Hu).
Qed.

(** X12.  The Generation is opened before the output is normalized.  For
    every record that holds a [modelInvocationInput] mapping and a
    well-formed [modelInvocationOutput] mapping: when normalizing the
    raw response content raises, or dumping the normalized content
    does, processing raises that exception after it has opened the
    Generation; it neither closes the Generation nor handles the
    rationale or the observation of the record. *)
Theorem failed_normalization_leaves_the_generation_open
    parent d input_data output e w :
  dict_lookup "modelInvocationInput" d = Some (PyDict input_data) ->
  dict_lookup "modelInvocationOutput" d = Some (PyDict output) ->
  output_well_formed output = true ->
  (_safe_json_loads (raw_content output) = Raise e
   \/ exists raw_response,
        _safe_json_loads (raw_content output) = Ret raw_response
        /\ json_dumps raw_response = Raise e) ->
  _process_orchestration_trace parent (PyDict d) w =
  (Raise e,
   World (S (next_handle w)) (uuids_minted w) (stdout w)
     (calls w ++ [generation_call parent (next_handle w) input_data])).
Proof.
  intros Hin Hout Hwf Hfail.
  rewrite _process_orchestration_trace_blocks. unfold bind.
  now rewrite (model_invocation_block_raises parent d input_data output e w
                 Hin Hout Hwf Hfail).
Qed.

End RecordProperties.

(** ** Streams and sessions *)

Section StreamProperties.

Context {runtime : PyRuntime} {environment : Environment}.
Variable debug : bool.

(** The loop over a stream that ends: it returns, and its error events
    are those of the records that raise, in their order. *)
Lemma process_completion_errors events root w :
  exists l,
    process_completion debug (stream_of events) root w =
      (Ret tt, snd (process_completion debug (stream_of events) root w))
    /\ calls (snd (process_completion debug (stream_of events) root w)) =
       calls w ++ l
    /\ filter is_chunk_error l =
       map (chunk_error_event root) (record_errors events).
Proof.
  revert w. induction events as [|ev events IH]; intros w;
    cbn [stream_of process_completion record_errors].
  - exists []. simpl. now rewrite app_nil_r.
  - destruct (loop_turn debug ev root
                (fun _ => process_completion debug (stream_of events) root) w)
      as (out & ->).
    cbv zeta.
    destruct (_process_trace_chunk_appends 0 ev root w (Nat.le_0_l _))
      as (_ & _ & _ & l & Hl & HP).
    apply record_calls_no_chunk_error in HP.
    destruct (chunk_outcome ev) as [[]|e].
    + destruct (IH (snd (_process_trace_chunk ev root w)))
        as (l' & Hrun & Hl' & Hf).
      exists (l ++ l'). split; [exact Hrun|]. split.
      * rewrite Hl', Hl. now rewrite app_assoc.
      * rewrite filter_app, HP. exact Hf.
    + set (w2 := World _ _ _ _).
      destruct (IH w2) as (l' & Hrun & Hl' & Hf).
      exists (l ++ chunk_error_event root e :: l'). split; [exact Hrun|]. split.
      * rewrite Hl'. unfold w2. simpl. rewrite Hl.
        rewrite <- !app_assoc. reflexivity.
      * rewrite filter_app, HP. simpl. now rewrite Hf.
Qed.

(** X13.  Records that raise never make a session fail.  For every
    stream that ends, whatever its records hold: the call returns status
    success with the session identity, and the chunk_processing_error
    events it emits on the root span are exactly one per record that
    raises, in the order of the records, each with that record's
    exception message. *)
Theorem every_failing_record_is_reported_once input_text w response events :
  backend_reply input_text w = Ret response ->
  completion response = stream_of events ->
  exists new,
    fst (trace_agent_interaction debug input_text w) =
      Ret (PyDict [("status", PyStr "success");
                   ("trace_id", PyStr (uuid4 (uuids_minted w)))])
    /\ calls (snd (trace_agent_interaction debug input_text w)) = calls w ++ new
    /\ filter is_chunk_error new =
       map (fun e => SpanEvent (S (next_handle w)) "chunk_processing_error"
                       (PyStr (exn_message e)) None)
           (record_errors events).
Proof.
  intros Hreply Hstream.
  destruct (trace_agent_interaction_session debug input_text w)
    as (out & middle & _ & Hres & Hcalls & _ & Hloop).
  assert (Hok : backend_failure input_text w = None).
  { unfold backend_failure. rewrite Hreply, Hstream.
    apply stream_failure_stream_of. }
  rewrite Hok in Hres, Hcalls. rewrite Hreply, Hstream in Hloop.
  destruct (process_completion_errors events (S (next_handle w))
              (loop_start input_text w out)) as (l & _ & Hl & Hf).
  rewrite Hloop in Hl. apply app_inv_head in Hl. subst l.
  exists (opening_calls input_text w ++ middle ++ closing_calls w None).
  split; [exact Hres|]. split; [exact Hcalls|].
  rewrite !filter_app, Hf. simpl. now rewrite app_nil_r.
Qed.

Lemma stream_calls_are_not_session_calls root n l :
  Forall (stream_call_ok root n) l ->
  filter is_trace_creation l = []
  /\ filter is_backend_call l = []
  /\ filter is_trace_update l = [].
Proof.
  induction 1 as [|c l Hc _ (IH1 & IH2 & IH3)]; [repeat split|].
  simpl. rewrite IH1, IH2, IH3.
  destruct Hc as [Hc|[e ->]]; [|repeat split].
  destruct c; simpl in Hc; try contradiction; repeat split.
Qed.

(** X14.  One session is one Trace and one backend call.  In every
    execution, the Trace is created once, the agent is invoked once
    (never again after a failure), and the Trace is updated once when the
    backend call or the stream raises and not at all otherwise. *)
Theorem session_creates_one_trace_and_calls_backend_once input_text w :
  exists new,
    calls (snd (trace_agent_interaction debug input_text w)) = calls w ++ new
    /\ length (filter is_trace_creation new) = 1
    /\ length (filter is_backend_call new) = 1
    /\ length (filter is_trace_update new) =
       match backend_failure input_text w with
       | Some _ => 1
       | None => 0
       end.
Proof.
  destruct (trace_agent_interaction_session debug input_text w)
    as (out & middle & HP & _ & Hcalls & _).
  destruct (stream_calls_are_not_session_calls _ _ _ HP) as (H1 & H2 & H3).
  exists (opening_calls input_text w ++ middle
          ++ closing_calls w (backend_failure input_text w)).
  split; [exact Hcalls|].
  rewrite !filter_app, H1, H2, H3.
  destruct (backend_failure input_text w); repeat split.
Qed.

Lemma stream_calls_keep_open root n cs l h :
  h < n ->
  Forall (stream_call_ok root n) l ->
  generation_is_open cs h = true ->
  generation_is_open (cs ++ l) h = true.
Proof.
  intros Hh Hl. unfold generation_is_open.
  rewrite !existsb_app. intros H.
  apply andb_prop in H as [Ho Hc]. rewrite Ho. simpl.
  apply negb_true_iff in Hc. rewrite Hc. simpl.
  apply negb_true_iff.
  induction Hl as [|c l Hc' _ IH]; [reflexivity|].
  simpl. rewrite IH, orb_false_r.
  destruct Hc' as [Hc'|[e ->]]; [|reflexivity].
  destruct c; simpl in *; try reflexivity.
  apply Nat.eqb_neq. lia.
Qed.

(** X15.  A Generation that a record has left open is never closed
    later.  From every point of the loop, with the Generation [h] open:
    after the rest of the stream has been read, whether the stream ends
    or raises, and after the session's closing calls, [h] is still
    open. *)
Theorem open_generation_is_never_closed_later stream root w h w0 failure :
  h < next_handle w ->
  generation_is_open (calls w) h = true ->
  generation_is_open
    (calls (snd (process_completion debug stream root w))
     ++ closing_calls w0 failure) h = true.
Proof.
  intros Hh Hopen.
  destruct (process_completion_appends debug stream root (next_handle w) w
              (le_n _)) as (_ & _ & l & Hl & HP).
  rewrite Hl.
  pose proof (stream_calls_keep_open root _ _ _ _ Hh HP Hopen) as H.
  unfold generation_is_open in *. rewrite existsb_app.
  apply andb_prop in H as [Ho Hc]. rewrite Ho. simpl.
  rewrite existsb_app. apply negb_true_iff in Hc. rewrite Hc. simpl.
  destruct failure; reflexivity.
Qed.

(** One turn of the loop returns, whatever the record does. *)
Lemma loop_turn_returns event span w :
  exists w1,
    try_except
      (_process_trace_chunk event span)
      (fun chunk_error =>
         do _ <- _debug_print debug
                   ("Error processing chunk: " ++ exn_message chunk_error) None;
         client_event span "chunk_processing_error"
           (PyStr (exn_message chunk_error)) None) w = (Ret tt, w1).
Proof.
  unfold try_except.
  destruct (_process_trace_chunk event span w) as [[[]|e] w1];
    [eexists; reflexivity|].
  unfold bind.
  destruct (_debug_print_none debug
              ("Error processing chunk: " ++ exn_message e) w1) as (out & ->).
  eexists. reflexivity.
Qed.

Lemma bind_returned {A B} (m : M A) (k : A -> M B) (a : A) (w w1 : world) :
  m w = (Ret a, w1) -> bind m k w = k a w1.
Proof. intros H. unfold bind. now rewrite H. Qed.

Lemma stream_failure_then_raise events e :
  stream_failure (stream_then_raise events e) = Some e.
Proof. induction events; [reflexivity|assumption]. Qed.

(** The loop over a stream that raises after some records: the records
    are processed as in the stream that ends after them, and the
    exception of the stream is raised. *)
Lemma process_completion_then_raise events e root w :
  process_completion debug (stream_then_raise events e) root w =
  (Raise e, snd (process_completion debug (stream_of events) root w)).
Proof.
  revert w. induction events as [|ev events IH]; intros w;
    cbn [stream_then_raise stream_of process_completion]; [reflexivity|].
  destruct (loop_turn_returns ev root w) as (w1 & Hturn).
  rewrite !(bind_returned _ _ _ _ _ Hturn). apply IH.
Qed.

(** X16.  A stream that raises after some records: the records read
    before are processed exactly as if the stream had ended after them,
    then the root span is ended with the error and the Trace is updated;
    the call returns status error with the stream's exception message. *)
Theorem broken_stream_keeps_the_records_read_before
    input_text w response events e :
  backend_reply input_text w = Ret response ->
  completion response = stream_then_raise events e ->
  exists out,
    fst (trace_agent_interaction debug input_text w) =
      Ret (PyDict [("status", PyStr "error");
                   ("message", PyStr (exn_message e))])
    /\ calls (snd (trace_agent_interaction debug input_text w)) =
       calls (snd (process_completion debug (stream_of events)
                     (S (next_handle w)) (loop_start input_text w out)))
       ++ [SpanEnd (S (next_handle w)) (Some (exn_message e));
           TraceUpdate (next_handle w)
             (PyDict [("error", PyStr (exn_message e))])].
Proof.
  intros Hreply Hstream.
  destruct (trace_agent_interaction_session debug input_text w)
    as (out & middle & _ & Hres & Hcalls & _ & Hloop).
  assert (Hfail : backend_failure input_text w = Some e).
  { unfold backend_failure. rewrite Hreply, Hstream.
    apply stream_failure_then_raise. }
  rewrite Hfail in Hres, Hcalls. rewrite Hreply, Hstream in Hloop.
  rewrite process_completion_then_raise in Hloop. simpl snd in Hloop.
  exists out. split; [exact Hres|].
  rewrite Hloop, Hcalls. unfold loop_start. simpl.
  now rewrite <- !app_assoc.
Qed.

End StreamProperties.

(** ** The order of the calls of one record *)

Section EmissionOrder.

Context {runtime : PyRuntime}.

#[local] Arguments _safe_json_loads : simpl never.
#[local] Arguments usage_of : simpl never.

(** X17.  A record that carries everything is replayed in a fixed order,
    whatever the order of its keys.  Whenever normalizing and dumping
    the raw response content, writing the collaborator's name and
    dumping the collaborator's output all return: the Generation is
    opened and closed, then the rationale event is emitted, then the
    final_response event, then the collaborator's span is opened and
    closed; a missing text, type, traceId or alias is the empty text. *)
Theorem full_record_is_replayed_in_fixed_order
    parent d input_data output rationale observation final collaborator
    raw_response dumped name text w :
  dict_lookup "modelInvocationInput" d = Some (PyDict input_data) ->
  dict_lookup "modelInvocationOutput" d = Some (PyDict output) ->
  output_well_formed output = true ->
  dict_lookup "rationale" d = Some (PyDict rationale) ->
  dict_lookup "observation" d = Some (PyDict observation) ->
  dict_lookup "finalResponse" observation = Some (PyDict final) ->
  dict_lookup "agentCollaboratorInvocationOutput" observation =
    Some (PyDict collaborator) ->
  _safe_json_loads (raw_content output) = Ret raw_response ->
  json_dumps raw_response = Ret dumped ->
  py_str (lookup_or "agentCollaboratorName" collaborator (PyStr "unknown")) =
    Ret name ->
  json_dumps (lookup_or "output" collaborator (PyDict [])) = Ret text ->
  _process_orchestration_trace parent (PyDict d) w =
  (Ret tt,
   World (S (S (next_handle w))) (uuids_minted w) (stdout w)
     (calls w
      ++ [generation_call parent (next_handle w) input_data;
          GenerationEnd (next_handle w) (PyStr dumped) (usage_details output);
          SpanEvent parent "rationale"
            (lookup_or "text" rationale (PyStr ""))
            (Some (PyDict
                     [("trace_id", lookup_or "traceId" rationale (PyStr ""))]));
          SpanEvent parent "final_response"
            (lookup_or "text" final (PyStr ""))
            (Some (PyDict
                     [("trace_id", lookup_or "traceId" observation (PyStr ""));
                      ("type", lookup_or "type" observation (PyStr ""))]));
          OpenSpan parent (S (next_handle w)) ("collaborator_" ++ name)
            (PyStr text)
            (Some (PyDict
                     [("collaborator_arn",
                       lookup_or "agentCollaboratorAliasArn" collaborator
                         (PyStr ""));
                      ("trace_id",
                       lookup_or "traceId" observation (PyStr ""))]));
          SpanEnd (S (next_handle w)) None])).
Proof.
  intros Hin Hout Hwf Hr Ho Hf Hc Hraw Hdump Hname Ht.
  rewrite _process_orchestration_trace_blocks. unfold bind at 1.
  rewrite (model_invocation_block_closes_with parent d input_data output
             raw_response dumped w Hin Hout Hwf Hraw Hdump).
  unfold rationale_observation_block, _process_observation, bind, lift,
    py_contains, py_getitem, py_get, dict_has, lookup_or in *.
  rewrite Hr, Ho. simpl. rewrite Hf, Hc. simpl. rewrite Hname. simpl.
  rewrite Ht. simpl.
  unfold span_end, record_call. simpl.
  rewrite <- !app_assoc. reflexivity.
Qed.

End EmissionOrder.

(** * The tracer run on concrete records

    The statements below run the embedding in the reference runtime. *)

(** C6 (code bug).  [_safe_json_loads] is documented to return a [Dict].
    On the text 1, which parses as JSON, it returns the integer 1: no
    exception, and no mapping either. *)
Theorem safe_json_loads_of_number_text_is_not_a_mapping :
  _safe_json_loads (runtime := Reference.runtime) (PyStr "1") = Ret (PyInt 1)
  /\ is_dict (PyInt 1) = false.
Proof. split; reflexivity. Qed.

(** C1, refuted as stated: after [input_record] the Generation 2 is open;
    processing [output_record] in that world makes no call and leaves
    the Generation open. *)
Lemma later_model_invocation_output_closes_nothing :
  snd (_process_trace_chunk (runtime := Reference.runtime)
         Runs.input_record 1 Runs.started) = Runs.generation_left_open
  /\ generation_is_open (calls Runs.generation_left_open) 2 = true
  /\ _process_trace_chunk (runtime := Reference.runtime)
       Runs.output_record 1 Runs.generation_left_open =
     (Ret tt, Runs.generation_left_open).
Proof. repeat split; reflexivity. Qed.

Lemma model_invocation_output_closes_generation_witness :
  exists rest,
    calls (snd (_process_orchestration_trace (runtime := Reference.runtime) 1
                  (PyDict Runs.output_then_input) Runs.started)) =
    calls Runs.started
    ++ generation_call 1 2 Runs.sample_input_entries
    :: GenerationEnd 2 (PyStr (MoreRuns.dumped_content "hi"))
         (usage_details Runs.sample_output_entries)
    :: rest
    /\ Forall (record_call_ok false 3) rest.
Proof.
  apply (proj1 (model_invocation_output_closes_generation_of_same_record
                  (runtime := Reference.runtime) 1 Runs.started)
           Runs.output_then_input Runs.sample_input_entries
           Runs.sample_output_entries (PyDict [("content", PyStr "hi")])
           (MoreRuns.dumped_content "hi"));
    reflexivity.
Defined.

(** C5, refuted as stated: two records with a [modelInvocationInput] each
    open the Generations 2 and 3, and nothing closes the Generation 2. *)
Lemma second_input_leaves_first_generation_open :
  calls (after_records (runtime := Reference.runtime)
           [Runs.input_record; Runs.input_record] 1 Runs.started) =
    [Runs.sample_generation 1 2; Runs.sample_generation 1 3]
  /\ generation_is_open
       [Runs.sample_generation 1 2; Runs.sample_generation 1 3] 2 = true.
Proof. split; reflexivity. Qed.

Lemma stale_generation_stays_open_witness :
  generation_is_open (calls Runs.generation_left_open) 2 = true
  /\ generation_is_open
       (calls (snd (_process_orchestration_trace (runtime := Reference.runtime) 1
                      (PyDict [("modelInvocationInput", PyDict Runs.sample_input_entries)])
                      Runs.generation_left_open))) 2 = true
  /\ In (generation_call 1 3 Runs.sample_input_entries)
       (calls (snd (_process_orchestration_trace (runtime := Reference.runtime) 1
                      (PyDict [("modelInvocationInput", PyDict Runs.sample_input_entries)])
                      Runs.generation_left_open))).
Proof.
  split; [reflexivity|].
  apply (stale_generation_stays_open_on_next_input
           (runtime := Reference.runtime) 1
           [("modelInvocationInput", PyDict Runs.sample_input_entries)]
           Runs.sample_input_entries Runs.generation_left_open 2).
  - reflexivity.
  - simpl. lia.
  - reflexivity.
Defined.

(** C8, refuted as stated: a record with both keys and the usage
    metadata, whose [rawResponse] is [None]: the Generation 2 is opened,
    [None.get] raises, and the Generation is left open. *)
Lemma null_raw_response_leaves_generation_open :
  dict_has "modelInvocationInput" Runs.null_raw_response = true
  /\ dict_has "modelInvocationOutput" Runs.null_raw_response = true
  /\ _process_orchestration_trace (runtime := Reference.runtime) 1
       (PyDict Runs.null_raw_response) Runs.started =
     (Raise (Exn AttributeError "'NoneType' object has no attribute 'get'"),
      Runs.generation_left_open).
Proof. repeat split; reflexivity. Qed.

Lemma input_and_output_in_one_record_witness :
  Permutation Runs.input_then_output Runs.output_then_input
  /\ exists rest,
       calls (snd (_process_orchestration_trace (runtime := Reference.runtime) 1
                     (PyDict Runs.output_then_input) Runs.started)) =
       calls Runs.started
       ++ generation_call 1 2 Runs.sample_input_entries
       :: GenerationEnd 2 (PyStr (MoreRuns.dumped_content "hi"))
            (PyDict [("input", PyInt 10); ("output", PyInt 5);
                     ("unit", PyStr "TOKENS")])
       :: rest
       /\ Forall (record_call_ok false 3) rest.
Proof.
  split; [apply perm_swap|].
  apply (input_and_output_in_one_record_open_then_close
           (runtime := Reference.runtime) 1 Runs.input_then_output
           Runs.output_then_input Runs.sample_input_entries
           Runs.sample_output_entries Runs.sample_metadata_entries
           Runs.sample_usage_entries (PyDict [("content", PyStr "hi")])
           (MoreRuns.dumped_content "hi") Runs.started);
    try reflexivity.
  - repeat constructor; simpl; intuition discriminate.
  - apply perm_swap.
Defined.

(** C9, refuted as stated: the record whose [trace] entry is [None] lacks
    the orchestration-trace path, and processing it raises. *)
Lemma null_trace_entry_raises :
  orchestration_path Runs.null_trace_record = None
  /\ fst (_process_trace_chunk (runtime := Reference.runtime)
            Runs.null_trace_record 1 Runs.started) =
     Raise (Exn AttributeError "'NoneType' object has no attribute 'get'").
Proof. split; reflexivity. Qed.

Lemma record_without_orchestration_trace_witness :
  snd (_process_trace_chunk (runtime := Reference.runtime)
         Runs.text_chunk_record 1 Runs.started) = Runs.started
  /\ _process_trace_chunk (runtime := Reference.runtime)
       Runs.text_chunk_record 1 Runs.started = (Ret tt, Runs.started).
Proof.
  destruct (record_without_orchestration_trace_is_ignored
              (runtime := Reference.runtime) Runs.text_chunk_record 1
              Runs.started eq_refl) as [Hworld Hquiet].
  split; [exact Hworld|exact (Hquiet eq_refl)].
Defined.



Lemma fatal_backend_error_witness :
  fst (trace_agent_interaction (runtime := Reference.runtime)
         (environment := Runs.refusing_backend)
         true "question" initial_world) =
  Ret (PyDict [("status", PyStr "error"); ("message", PyStr "access denied")]).
Proof.
  exact (proj1
           (proj2 (fatal_backend_error_is_recorded_and_returned
                     (runtime := Reference.runtime)
                     (environment := Runs.refusing_backend)
                     true "question" initial_world)
              Runs.access_denied eq_refl)).
Defined.

Lemma one_failing_record_witness :
  exists new,
    fst (trace_agent_interaction (runtime := Reference.runtime)
           (environment := Runs.second_of_three_fails)
           true "question" initial_world) =
    Ret (PyDict [("status", PyStr "success"); ("trace_id", PyStr "session-0")])
    /\ calls (snd (trace_agent_interaction (runtime := Reference.runtime)
                     (environment := Runs.second_of_three_fails)
                     true "question" initial_world)) = new
    /\ filter is_chunk_error new =
       [SpanEvent 1 "chunk_processing_error"
          (PyStr "'NoneType' object has no attribute 'get'") None].
Proof.
  assert (Hpre : Forall (fun ev => chunk_outcome (runtime := Reference.runtime) ev
                                   = Ret tt)
                   [Runs.input_output_record])
    by (constructor; [reflexivity|constructor]).
  assert (Hpost : Forall (fun ev => chunk_outcome (runtime := Reference.runtime) ev
                                    = Ret tt)
                    [Runs.input_record])
    by (constructor; [reflexivity|constructor]).
  destruct (one_failing_record_is_reported_and_the_rest_processed
              (runtime := Reference.runtime)
              (environment := Runs.second_of_three_fails)
              true "question" initial_world
              {| completion :=
                   stream_of [Runs.input_output_record;
                              Runs.null_trace_record;
                              Runs.input_record] |}
              [Runs.input_output_record] Runs.null_trace_record
              [Runs.input_record]
              (Exn AttributeError "'NoneType' object has no attribute 'get'")
              eq_refl eq_refl Hpre eq_refl Hpost)
    as (out & out' & new & Hresult & _ & Hcalls & Herrors).
  exists new. split; [exact Hresult|]. split; [exact Hcalls|exact Herrors].
Defined.

Lemma success_result_witness :
  fst (trace_agent_interaction (runtime := Reference.runtime)
         (environment := Runs.silent_backend)
         false "question" initial_world) =
    Ret (PyDict [("status", PyStr "success"); ("trace_id", PyStr "session-0")])
  /\ "session-0" = uuid4 (Environment := Runs.silent_backend) 0.
Proof.
  split; [reflexivity|].
  exact (proj1 (success_result_carries_the_session_identity
                  (runtime := Reference.runtime)
                  (environment := Runs.silent_backend)
                  false "question" initial_world "session-0" eq_refl)).
Defined.

Lemma model_invocation_output_alone_witness :
  _process_orchestration_trace (runtime := Reference.runtime) 1
    (PyDict [("modelInvocationOutput", PyDict Runs.sample_output_entries)])
    Runs.generation_left_open =
  (Ret tt, Runs.generation_left_open).
Proof.
  exact (model_invocation_output_alone_is_ignored
           (runtime := Reference.runtime) 1
           [("modelInvocationOutput", PyDict Runs.sample_output_entries)]
           Runs.generation_left_open eq_refl eq_refl eq_refl eq_refl).
Defined.

Lemma collaborator_span_name_witness :
  calls (snd (_process_observation (runtime := Reference.runtime) 1
                (PyDict Runs.nameless_collaborator) Runs.started)) =
  [OpenSpan 1 2 "collaborator_unknown" (PyStr "{}")
     (Some (PyDict [("collaborator_arn", PyStr "arn:alias");
                    ("trace_id", PyStr "t-2")]));
   SpanEnd 2 None].
Proof.
  exact (f_equal (fun outcome => calls (snd outcome))
           (collaborator_span_name_defaults_to_unknown
              (runtime := Reference.runtime) 1 Runs.nameless_collaborator
              [("agentCollaboratorAliasArn", PyStr "arn:alias")] "{}"
              Runs.started eq_refl eq_refl eq_refl eq_refl)).
Defined.

(** ** Runs of the further properties *)

Lemma key_order_witness :
  _process_orchestration_trace (runtime := Reference.runtime) 1
    (PyDict Runs.output_then_input) Runs.started =
  _process_orchestration_trace (runtime := Reference.runtime) 1
    (PyDict Runs.input_then_output) Runs.started.
Proof.
  refine (proj1 (key_order_is_irrelevant (runtime := Reference.runtime) 1
                   Runs.input_then_output Runs.output_then_input Runs.started
                   _ (perm_swap _ _ _))).
  repeat constructor; simpl; intuition discriminate.
Defined.

Lemma record_with_orchestration_trace_witness :
  _process_trace_chunk (runtime := Reference.runtime)
    Runs.input_output_record 1 Runs.started =
  _process_orchestration_trace (runtime := Reference.runtime) 1
    (PyDict Runs.output_then_input) Runs.started.
Proof.
  exact (record_with_orchestration_trace_is_dispatched
           (runtime := Reference.runtime) Runs.input_output_record
           (PyDict Runs.output_then_input) 1 Runs.started eq_refl).
Defined.

Lemma safe_json_loads_decodable_bytes_witness :
  _safe_json_loads (runtime := Reference.runtime) (PyBytes [x5b; x5d]) =
    Ret (PyList [])
  /\ _safe_json_loads (runtime := Reference.runtime) (PyBytes [x68; x69]) =
     Ret (PyDict [("content", PyStr "b'hi'")]).
Proof.
  split.
  - apply (proj1 (safe_json_loads_decodable_bytes (runtime := Reference.runtime)
                    [x5b; x5d] eq_refl)).
    reflexivity.
  - apply (proj1 (proj2 (safe_json_loads_decodable_bytes
                           (runtime := Reference.runtime) [x68; x69] eq_refl))
             MoreRuns.expecting_value_at_start);
      reflexivity.
Defined.

Lemma failed_normalization_witness :
  _process_orchestration_trace (runtime := Reference.runtime) 1
    (PyDict MoreRuns.long_integer_trace) Runs.started =
  (Raise MoreRuns.too_many_digits, Runs.generation_left_open).
Proof.
  apply (failed_normalization_leaves_the_generation_open
           (runtime := Reference.runtime) 1 MoreRuns.long_integer_trace
           Runs.sample_input_entries MoreRuns.long_integer_output
           MoreRuns.too_many_digits Runs.started);
    try reflexivity.
  left. vm_compute. reflexivity.
Defined.

Lemma library_error_witness :
  is_dict (PyStr MoreRuns.long_integer) = false
  /\ ((exists text,
         json_loads (PyRuntime := Reference.runtime) text =
           Raise MoreRuns.too_many_digits
         /\ exn_class_of MoreRuns.too_many_digits <> JSONDecodeError
         /\ (PyStr MoreRuns.long_integer = PyStr text
             \/ exists b,
                  PyStr MoreRuns.long_integer = PyBytes b
                  /\ bytes_decode_utf8 b = Ret text))
      \/ py_str (PyRuntime := Reference.runtime) (PyStr MoreRuns.long_integer) =
         Raise MoreRuns.too_many_digits).
Proof.
  apply (safe_json_loads_raises_only_what_the_library_raises
           (runtime := Reference.runtime) (PyStr MoreRuns.long_integer)
           MoreRuns.too_many_digits).
  vm_compute. reflexivity.
Defined.

Lemma every_failing_record_witness :
  exists new,
    fst (trace_agent_interaction (runtime := Reference.runtime)
           (environment := MoreRuns.first_and_last_fail)
           false "question" initial_world) =
      Ret (PyDict [("status", PyStr "success"); ("trace_id", PyStr "session-0")])
    /\ calls (snd (trace_agent_interaction (runtime := Reference.runtime)
                     (environment := MoreRuns.first_and_last_fail)
                     false "question" initial_world)) = new
    /\ filter is_chunk_error new =
       [SpanEvent 1 "chunk_processing_error"
          (PyStr "'NoneType' object has no attribute 'get'") None;
        SpanEvent 1 "chunk_processing_error"
          (PyStr "'str' object has no attribute 'get'") None].
Proof.
  destruct (every_failing_record_is_reported_once
              (runtime := Reference.runtime)
              (environment := MoreRuns.first_and_last_fail)
              false "question" initial_world
              {| completion :=
                   stream_of [Runs.null_trace_record; Runs.input_output_record;
                              Runs.text_chunk_record; MoreRuns.text_record] |}
              [Runs.null_trace_record; Runs.input_output_record;
               Runs.text_chunk_record; MoreRuns.text_record]
              eq_refl eq_refl)
    as (new & Hresult & Hcalls & Herrors).
  exists new. split; [exact Hresult|]. split; [exact Hcalls|exact Herrors].
Defined.

Lemma open_generation_witness :
  generation_is_open
    (calls (snd (process_completion (runtime := Reference.runtime) true
                   (stream_of [Runs.output_record; Runs.input_record]) 1
                   Runs.generation_left_open))
     ++ closing_calls initial_world None) 2 = true.
Proof.
  apply (open_generation_is_never_closed_later (runtime := Reference.runtime)
           true (stream_of [Runs.output_record; Runs.input_record]) 1
           Runs.generation_left_open 2 initial_world None).
  - simpl. lia.
  - reflexivity.
Defined.

Lemma broken_stream_witness :
  fst (trace_agent_interaction (runtime := Reference.runtime)
         (environment := MoreRuns.breaks_after_one)
         false "question" initial_world) =
  Ret (PyDict [("status", PyStr "error"); ("message", PyStr "stream broke")]).
Proof.
  destruct (broken_stream_keeps_the_records_read_before
              (runtime := Reference.runtime)
              (environment := MoreRuns.breaks_after_one)
              false "question" initial_world
              {| completion :=
                   stream_then_raise [Runs.input_record] MoreRuns.stream_broke |}
              [Runs.input_record] MoreRuns.stream_broke eq_refl eq_refl)
    as (out & Hresult & _).
  exact Hresult.
Defined.

Lemma full_record_witness :
  _process_orchestration_trace (runtime := Reference.runtime) 1
    (PyDict MoreRuns.full_trace) Runs.started =
  (Ret tt,
   World 4 1 []
     [Runs.sample_generation 1 2;
      GenerationEnd 2 (PyStr (MoreRuns.dumped_content "hi"))
        (PyDict [("input", PyInt 10); ("output", PyInt 5);
                 ("unit", PyStr "TOKENS")]);
      SpanEvent 1 "rationale" (PyStr "because")
        (Some (PyDict [("trace_id", PyStr "")]));
      SpanEvent 1 "final_response" (PyStr "done")
        (Some (PyDict [("trace_id", PyStr "t-3"); ("type", PyStr "FINISH")]));
      OpenSpan 1 3 "collaborator_helper" (PyStr (MoreRuns.dumped_text "ok"))
        (Some (PyDict [("collaborator_arn", PyStr "");
                       ("trace_id", PyStr "t-3")]));
      SpanEnd 3 None]).
Proof.
  exact (full_record_is_replayed_in_fixed_order
           (runtime := Reference.runtime) 1 MoreRuns.full_trace
           Runs.sample_input_entries Runs.sample_output_entries
           [("text", PyStr "because")] MoreRuns.full_observation
           [("text", PyStr "done")]
           [("agentCollaboratorName", PyStr "helper");
            ("output", PyDict [("text", PyStr "ok")])]
           (PyDict [("content", PyStr "hi")]) (MoreRuns.dumped_content "hi")
           "helper" (MoreRuns.dumped_text "ok") Runs.started
           eq_refl eq_refl eq_refl eq_refl eq_refl eq_refl eq_refl
           eq_refl eq_refl eq_refl eq_refl).
Defined.
